(** * Student dashboard: the filter, aggregation and alert pipeline of app.py

    A shallow embedding of the computational core of [app.py].

    - A pandas DataFrame is a list of rows (a record per schema), in row
      order.  Row index labels are not modelled: no computation of the
      script reads them.
    - A float64 cell is a [num]: either [NaN] (a missing value, or the mean
      of an empty Series) or [Num q], with [q] an exact rational.  Rounding
      of float64 arithmetic is not modelled.
    - The columns [Student], [Subject] and [Status] hold strings, as the
      schema comments of the script say.
    - A [datetime64] cell is an integer number of nanoseconds since the
      epoch; a [datetime.date] is an integer number of days since the epoch.
    - The script is a sequence of statements over its module-level
      variables; it is modelled as a composition of [Session] transformers,
      where a [Session] holds the variables the script assigns and the list
      of widgets rendered so far. *)

From Stdlib Require Import String List ZArith QArith Bool Lia Permutation Sorted.
Import ListNotations.
Open Scope string_scope.
Open Scope list_scope.
Open Scope Z_scope.

(** ** Cells *)

Inductive num : Type :=
| NaN
| Num (q : Q).

(** [x < c] on a float cell: a comparison with NaN is False. *)
Definition num_ltb (x : num) (c : Q) : bool :=
  match x with
  | NaN => false
  | Num q => negb (Qle_bool c q)
  end.

(** [x * c] and [c - x]: NaN propagates. *)
Definition num_mul (x : num) (c : Q) : num :=
  match x with
  | NaN => NaN
  | Num q => Num (q * c)%Q
  end.

Definition num_rsub (c : Q) (x : num) : num :=
  match x with
  | NaN => NaN
  | Num q => Num (c - q)%Q
  end.

Definition count_true (l : list bool) : nat :=
  List.length (filter (fun b => b) l).

(** [Series.mean()] of a boolean Series: sum / count, NaN when empty. *)
Definition mean_bool (l : list bool) : num :=
  match l with
  | [] => NaN
  | _ :: _ =>
      Num (inject_Z (Z.of_nat (count_true l))
           / inject_Z (Z.of_nat (List.length l)))%Q
  end.

Fixpoint dropna (l : list num) : list Q :=
  match l with
  | [] => []
  | NaN :: t => dropna t
  | Num q :: t => q :: dropna t
  end.

Definition Qsum (l : list Q) : Q :=
  fold_right Qplus 0%Q l.

(** [Series.mean()] of a float Series: NaN cells are skipped; NaN when
    nothing is left. *)
Definition mean_num (l : list num) : num :=
  match dropna l with
  | [] => NaN
  | q :: t => Num (Qsum (q :: t) / inject_Z (Z.of_nat (List.length (q :: t))))%Q
  end.

(** ** Rows *)

(** Frames that carry the columns [Student] and [Subject]. *)
Class Keyed (R : Type) : Type := {
  Student : R -> string;
  Subject : R -> string
}.

(** attendance_dataset.csv: Student, Subject, Date, Status *)
Record AttendanceRecord : Type := mkAttendance {
  att_Student : string;
  att_Subject : string;
  att_Date : Z;
  Status : string
}.

(** marks_dataset.csv: Student, Subject, Marks *)
Record MarkRecord : Type := mkMark {
  mark_Student : string;
  mark_Subject : string;
  Marks : num
}.

(** events.csv: Event, Date, Subject *)
Record EventRecord : Type := mkEvent {
  Event : string;
  Date : Z;
  ev_Subject : string
}.

(** Student, Subject, "Attendance %" *)
Record AttendanceSummary : Type := mkSummary {
  sum_Student : string;
  sum_Subject : string;
  Attendance_pct : num
}.

(** Student, Subject, Marks, "Attendance %" *)
Record MergedRow : Type := mkMerged {
  mrg_Student : string;
  mrg_Subject : string;
  mrg_Marks : num;
  mrg_Attendance_pct : num
}.

(** Student, Marks (the mean) *)
Record AvgMarksRow : Type := mkAvg {
  avg_Student : string;
  avg_Marks : num
}.

#[export] Instance Keyed_Attendance : Keyed AttendanceRecord :=
  {| Student := att_Student; Subject := att_Subject |}.
#[export] Instance Keyed_Mark : Keyed MarkRecord :=
  {| Student := mark_Student; Subject := mark_Subject |}.
#[export] Instance Keyed_Summary : Keyed AttendanceSummary :=
  {| Student := sum_Student; Subject := sum_Subject |}.
#[export] Instance Keyed_Merged : Keyed MergedRow :=
  {| Student := mrg_Student; Subject := mrg_Subject |}.

(** ** Constants *)

Definition LOW_ATTENDANCE_THRESHOLD : Q := 75%Q.
Definition FAILING_MARK_THRESHOLD : Q := 40%Q.

(** ** Frame operations *)

(** [v in values], and [Series.isin(values)] at one cell. *)
Definition isin (v : string) (values : list string) : bool :=
  existsb (String.eqb v) values.

Definition key : Type := (string * string)%type.

Definition key_of {R : Type} `{Keyed R} (r : R) : key :=
  (Student r, Subject r).

Definition key_eqb (a b : key) : bool :=
  String.eqb (fst a) (fst b) && String.eqb (snd a) (snd b).

(** Lexicographic order on group keys. *)
Definition key_leb (a b : key) : bool :=
  match String.compare (fst a) (fst b) with
  | Lt => true
  | Eq => String.leb (snd a) (snd b)
  | Gt => false
  end.

Fixpoint insert_sorted {A : Type} (leb : A -> A -> bool) (x : A) (l : list A)
  : list A :=
  match l with
  | [] => [x]
  | y :: t => if leb x y then x :: y :: t else y :: insert_sorted leb x t
  end.

(** Ascending sort; rows that compare equal keep their relative order. *)
Fixpoint sort_by {A : Type} (leb : A -> A -> bool) (l : list A) : list A :=
  match l with
  | [] => []
  | x :: t => insert_sorted leb x (sort_by leb t)
  end.

(** Distinct values, in order of first appearance. *)
Fixpoint unique {A : Type} (eqb : A -> A -> bool) (l : list A) : list A :=
  match l with
  | [] => []
  | x :: t => x :: filter (fun y => negb (eqb x y)) (unique eqb t)
  end.

(** The groups of [df.groupby(["Student", "Subject"])]: the observed keys,
    sorted. *)
Definition group_keys {R : Type} `{Keyed R} (df : list R) : list key :=
  sort_by key_leb (unique key_eqb (map key_of df)).

Definition group_rows {R : Type} `{Keyed R} (df : list R) (k : key) : list R :=
  filter (fun r => key_eqb (key_of r) k) df.

(** [df.groupby(["Student", "Subject"])["Status"].apply(f)
       .reset_index(name="Attendance %")] *)
Definition groupby_Status_apply (f : list string -> num)
  (df : list AttendanceRecord) : list AttendanceSummary :=
  map (fun k => mkSummary (fst k) (snd k) (f (map Status (group_rows df k))))
      (group_keys df).

(** [lambda x: (x == "Present").mean() * 100] *)
Definition present_percent (x : list string) : num :=
  num_mul (mean_bool (map (fun s => String.eqb s "Present") x)) 100%Q.

Definition student_keys (df : list MarkRecord) : list string :=
  sort_by String.leb (unique String.eqb (map Student df)).

(** [df.groupby("Student")["Marks"].mean().reset_index()] *)
Definition groupby_Student_Marks_mean (df : list MarkRecord)
  : list AvgMarksRow :=
  map (fun s =>
         mkAvg s (mean_num (map Marks
                    (filter (fun r => String.eqb (Student r) s) df))))
      (student_keys df).

(** [pd.merge(left, right, on=["Student", "Subject"], how="left")]: every
    left row, in order, once per matching right row; with a missing
    "Attendance %" when no right row matches. *)
Definition merge_left (left : list MarkRecord) (right : list AttendanceSummary)
  : list MergedRow :=
  flat_map
    (fun m =>
       match filter (fun s => key_eqb (key_of s) (key_of m)) right with
       | [] => [mkMerged (Student m) (Subject m) (Marks m) NaN]
       | s :: ss =>
           map (fun s' => mkMerged (Student m) (Subject m) (Marks m)
                            (Attendance_pct s'))
               (s :: ss)
       end)
    left.

(** [Series.dt.date]: the calendar day of a timestamp. *)
Definition NS_PER_DAY : Z := 86400000000000.

Definition dt_date (ts : Z) : Z := ts / NS_PER_DAY.

(** [df.sort_values("Date")]: ascending by the timestamp.  pandas does not
    fix the order of rows with equal timestamps; the model keeps them in
    table order, and the proofs below use only that the result is sorted
    and a permutation of the frame. *)
Definition sort_values_Date (df : list EventRecord) : list EventRecord :=
  sort_by (fun a b => Date a <=? Date b) df.

(** ** The page *)

Inductive frame : Type :=
| AttendanceFrame (rows : list AttendanceRecord)
| SummaryFrame (rows : list AttendanceSummary)
| MarksFrame (rows : list MarkRecord)
| MergedFrame (rows : list MergedRow)
| EventsFrame (rows : list EventRecord).

Inductive figure : Type :=
| px_bar_attendance (data : list AttendanceSummary)
| px_pie (data : list (string * num))
| px_bar_marks (data : list AvgMarksRow)
| px_box (data : list MarkRecord)
| px_scatter (data : list MergedRow).

Inductive widget : Type :=
| st_title (text : string)
| st_sidebar_header (text : string)
| st_sidebar_multiselect (label : string) (options default : list string)
| st_header (text : string)
| st_subheader (text : string)
| st_dataframe (data : frame)
| st_plotly_chart (fig : figure)
| st_warning (text : string)
| st_success (text : string).

(** ** Module-level state of the script *)

(** What the script reads: the three loaded tables, the date of the run and
    the four sidebar selections. *)
Record Globals : Type := mkGlobals {
  attendance_df : list AttendanceRecord;
  marks_df : list MarkRecord;
  events_df : list EventRecord;
  today : Z;
  selected_students_attendance : list string;
  selected_subjects_attendance : list string;
  selected_students_marks : list string;
  selected_subjects_marks : list string
}.

(** What the script assigns, and the widgets rendered so far.  A variable
    that has not been assigned yet holds an empty frame (or NaN). *)
Record Session : Type := mkSession {
  filtered_df : list AttendanceRecord;
  attendance_summary : list AttendanceSummary;
  present_ratio : num;
  pie_data : list (string * num);
  low_attendance : list AttendanceSummary;
  filtered_marks_df : list MarkRecord;
  failing_students : list MarkRecord;
  avg_marks : list AvgMarksRow;
  merged_df : list MergedRow;
  special_attention : list MergedRow;
  upcoming : list EventRecord;
  near_deadline : list EventRecord;
  page : list widget
}.

Definition fresh : Session :=
  mkSession [] [] NaN [] [] [] [] [] [] [] [] [] [].

Definition stmt : Type := Session -> Session.

Definition seq (a b : stmt) : stmt := fun s => b (a s).

Notation "a ;; b" := (seq a b) (at level 61, right associativity).

(** [if c: body] *)
Definition when (c : Session -> bool) (body : stmt) : stmt :=
  fun s => if c s then body s else s.

(** [if c: a else: b] *)
Definition ifelse (c : Session -> bool) (a b : stmt) : stmt :=
  fun s => if c s then a s else b s.

Definition render (w : Session -> widget) : stmt :=
  fun s =>
    mkSession (filtered_df s) (attendance_summary s) (present_ratio s)
      (pie_data s) (low_attendance s) (filtered_marks_df s)
      (failing_students s) (avg_marks s) (merged_df s) (special_attention s)
      (upcoming s) (near_deadline s) (page s ++ [w s]).

Definition assign_filtered_df (e : Session -> list AttendanceRecord) : stmt :=
  fun s =>
    mkSession (e s) (attendance_summary s) (present_ratio s)
      (pie_data s) (low_attendance s) (filtered_marks_df s)
      (failing_students s) (avg_marks s) (merged_df s) (special_attention s)
      (upcoming s) (near_deadline s) (page s).

Definition assign_attendance_summary (e : Session -> list AttendanceSummary)
  : stmt :=
  fun s =>
    mkSession (filtered_df s) (e s) (present_ratio s)
      (pie_data s) (low_attendance s) (filtered_marks_df s)
      (failing_students s) (avg_marks s) (merged_df s) (special_attention s)
      (upcoming s) (near_deadline s) (page s).

Definition assign_present_ratio (e : Session -> num) : stmt :=
  fun s =>
    mkSession (filtered_df s) (attendance_summary s) (e s)
      (pie_data s) (low_attendance s) (filtered_marks_df s)
      (failing_students s) (avg_marks s) (merged_df s) (special_attention s)
      (upcoming s) (near_deadline s) (page s).

Definition assign_pie_data (e : Session -> list (string * num)) : stmt :=
  fun s =>
    mkSession (filtered_df s) (attendance_summary s) (present_ratio s)
      (e s) (low_attendance s) (filtered_marks_df s)
      (failing_students s) (avg_marks s) (merged_df s) (special_attention s)
      (upcoming s) (near_deadline s) (page s).

Definition assign_low_attendance (e : Session -> list AttendanceSummary)
  : stmt :=
  fun s =>
    mkSession (filtered_df s) (attendance_summary s) (present_ratio s)
      (pie_data s) (e s) (filtered_marks_df s)
      (failing_students s) (avg_marks s) (merged_df s) (special_attention s)
      (upcoming s) (near_deadline s) (page s).

Definition assign_filtered_marks_df (e : Session -> list MarkRecord) : stmt :=
  fun s =>
    mkSession (filtered_df s) (attendance_summary s) (present_ratio s)
      (pie_data s) (low_attendance s) (e s)
      (failing_students s) (avg_marks s) (merged_df s) (special_attention s)
      (upcoming s) (near_deadline s) (page s).

Definition assign_failing_students (e : Session -> list MarkRecord) : stmt :=
  fun s =>
    mkSession (filtered_df s) (attendance_summary s) (present_ratio s)
      (pie_data s) (low_attendance s) (filtered_marks_df s)
      (e s) (avg_marks s) (merged_df s) (special_attention s)
      (upcoming s) (near_deadline s) (page s).

Definition assign_avg_marks (e : Session -> list AvgMarksRow) : stmt :=
  fun s =>
    mkSession (filtered_df s) (attendance_summary s) (present_ratio s)
      (pie_data s) (low_attendance s) (filtered_marks_df s)
      (failing_students s) (e s) (merged_df s) (special_attention s)
      (upcoming s) (near_deadline s) (page s).

Definition assign_merged_df (e : Session -> list MergedRow) : stmt :=
  fun s =>
    mkSession (filtered_df s) (attendance_summary s) (present_ratio s)
      (pie_data s) (low_attendance s) (filtered_marks_df s)
      (failing_students s) (avg_marks s) (e s) (special_attention s)
      (upcoming s) (near_deadline s) (page s).

Definition assign_special_attention (e : Session -> list MergedRow) : stmt :=
  fun s =>
    mkSession (filtered_df s) (attendance_summary s) (present_ratio s)
      (pie_data s) (low_attendance s) (filtered_marks_df s)
      (failing_students s) (avg_marks s) (merged_df s) (e s)
      (upcoming s) (near_deadline s) (page s).

Definition assign_upcoming (e : Session -> list EventRecord) : stmt :=
  fun s =>
    mkSession (filtered_df s) (attendance_summary s) (present_ratio s)
      (pie_data s) (low_attendance s) (filtered_marks_df s)
      (failing_students s) (avg_marks s) (merged_df s) (special_attention s)
      (e s) (near_deadline s) (page s).

Definition assign_near_deadline (e : Session -> list EventRecord) : stmt :=
  fun s =>
    mkSession (filtered_df s) (attendance_summary s) (present_ratio s)
      (pie_data s) (low_attendance s) (filtered_marks_df s)
      (failing_students s) (avg_marks s) (merged_df s) (special_attention s)
      (upcoming s) (e s) (page s).

(** [not df.empty] *)
Definition not_empty {A : Type} (df : list A) : bool :=
  match df with
  | [] => false
  | _ :: _ => true
  end.

(** ** The script *)

(** [["All Students"] + list(df["Student"].unique())] and the same for
    subjects: the options of a sidebar selection. *)
Definition student_options {R : Type} `{Keyed R} (df : list R) : list string :=
  ["All Students"] ++ unique String.eqb (map Student df).

Definition subject_options {R : Type} `{Keyed R} (df : list R) : list string :=
  ["All Subjects"] ++ unique String.eqb (map Subject df).

(** PAGE TITLE and SIDEBAR FILTERS.  The value a multiselect returns is the
    corresponding selection of [Globals]. *)
Definition sidebar (g : Globals) : stmt :=
  render (fun _ => st_title "📊 Student Dashboard") ;;
  render (fun _ => st_sidebar_header "🔍 Filters") ;;
  render (fun _ => st_sidebar_multiselect "Select Students (Attendance)"
                     (student_options (attendance_df g)) ["All Students"]) ;;
  render (fun _ => st_sidebar_multiselect "Select Subjects (Attendance)"
                     (subject_options (attendance_df g)) ["All Subjects"]) ;;
  render (fun _ => st_sidebar_multiselect "Select Students (Marks)"
                     (student_options (marks_df g)) ["All Students"]) ;;
  render (fun _ => st_sidebar_multiselect "Select Subjects (Marks)"
                     (subject_options (marks_df g)) ["All Subjects"]).

(** TAB 1 - Attendance *)
Definition tab1 (g : Globals) : stmt :=
  render (fun _ => st_header "📘 Attendance Overview") ;;
  assign_filtered_df (fun _ => attendance_df g) ;;
  when (fun _ => negb (isin "All Students" (selected_students_attendance g)))
    (assign_filtered_df (fun s =>
       filter (fun r => isin (Student r) (selected_students_attendance g))
              (filtered_df s))) ;;
  when (fun _ => negb (isin "All Subjects" (selected_subjects_attendance g)))
    (assign_filtered_df (fun s =>
       filter (fun r => isin (Subject r) (selected_subjects_attendance g))
              (filtered_df s))) ;;
  render (fun _ => st_subheader "Filtered Attendance Data") ;;
  render (fun s => st_dataframe (AttendanceFrame (filtered_df s))) ;;
  assign_attendance_summary (fun s =>
    groupby_Status_apply present_percent (filtered_df s)) ;;
  render (fun _ => st_subheader "Attendance % by Student and Subject") ;;
  render (fun s => st_plotly_chart (px_bar_attendance (attendance_summary s))) ;;
  render (fun _ => st_subheader "Overall Attendance Distribution") ;;
  assign_present_ratio (fun s =>
    num_mul (mean_bool (map (fun r => String.eqb (Status r) "Present")
                            (filtered_df s))) 100%Q) ;;
  assign_pie_data (fun s =>
    [("Present", present_ratio s);
     ("Absent", num_rsub 100%Q (present_ratio s))]) ;;
  render (fun s => st_plotly_chart (px_pie (pie_data s))) ;;
  assign_low_attendance (fun s =>
    filter (fun r => num_ltb (Attendance_pct r) LOW_ATTENDANCE_THRESHOLD)
           (attendance_summary s)) ;;
  when (fun s => not_empty (low_attendance s))
    (render (fun _ => st_warning "⚠️ Students with attendance below 75%:") ;;
     render (fun s => st_dataframe (SummaryFrame (low_attendance s)))).

(** TAB 2 - Marks *)
Definition tab2 (g : Globals) : stmt :=
  render (fun _ => st_header "📝 Marks Overview") ;;
  assign_filtered_marks_df (fun _ => marks_df g) ;;
  when (fun _ => negb (isin "All Students" (selected_students_marks g)))
    (assign_filtered_marks_df (fun s =>
       filter (fun r => isin (Student r) (selected_students_marks g))
              (filtered_marks_df s))) ;;
  when (fun _ => negb (isin "All Subjects" (selected_subjects_marks g)))
    (assign_filtered_marks_df (fun s =>
       filter (fun r => isin (Subject r) (selected_subjects_marks g))
              (filtered_marks_df s))) ;;
  render (fun _ => st_subheader "Marks Data") ;;
  render (fun s => st_dataframe (MarksFrame (filtered_marks_df s))) ;;
  assign_failing_students (fun s =>
    filter (fun r => num_ltb (Marks r) FAILING_MARK_THRESHOLD)
           (filtered_marks_df s)) ;;
  when (fun s => not_empty (failing_students s))
    (render (fun _ => st_warning "⚠️ Students scoring below 40:") ;;
     render (fun s => st_dataframe (MarksFrame (failing_students s)))) ;;
  assign_avg_marks (fun s => groupby_Student_Marks_mean (filtered_marks_df s)) ;;
  render (fun _ => st_subheader "Average Marks per Student") ;;
  render (fun s => st_plotly_chart (px_bar_marks (avg_marks s))) ;;
  render (fun _ => st_subheader "Subject-wise Marks Distribution") ;;
  render (fun s => st_plotly_chart (px_box (filtered_marks_df s))) ;;
  render (fun _ => st_subheader "🚨 Students Needing Special Attention") ;;
  assign_attendance_summary (fun _ =>
    groupby_Status_apply present_percent (attendance_df g)) ;;
  assign_merged_df (fun s =>
    merge_left (filtered_marks_df s) (attendance_summary s)) ;;
  assign_special_attention (fun s =>
    filter (fun r =>
              num_ltb (mrg_Marks r) FAILING_MARK_THRESHOLD
              && num_ltb (mrg_Attendance_pct r) LOW_ATTENDANCE_THRESHOLD)
           (merged_df s)) ;;
  ifelse (fun s => not_empty (special_attention s))
    (render (fun _ => st_warning
       "⚠️ These students need special attention (low marks & low attendance):") ;;
     render (fun s => st_dataframe (MergedFrame (special_attention s))) ;;
     render (fun s => st_plotly_chart (px_scatter (merged_df s))))
    (render (fun _ => st_success
       "✅ No students currently flagged for special attention.")).

(** TAB 3 - Events & Reminders *)
Definition tab3 (g : Globals) : stmt :=
  render (fun _ => st_header "📅 Upcoming Exams & Assignments") ;;
  assign_upcoming (fun _ =>
    sort_values_Date
      (filter (fun e => today g <=? dt_date (Date e)) (events_df g))) ;;
  render (fun s => st_dataframe (EventsFrame (upcoming s))) ;;
  assign_near_deadline (fun s =>
    filter (fun e => dt_date (Date e) <=? today g + 7) (upcoming s)) ;;
  when (fun s => not_empty (near_deadline s))
    (render (fun _ => st_warning "⚠️ Deadlines within 7 days:") ;;
     render (fun s => st_dataframe (EventsFrame (near_deadline s)))).

Definition script (g : Globals) : stmt :=
  sidebar g ;; tab1 g ;; tab2 g ;; tab3 g.

Definition run (g : Globals) : Session := script g fresh.

(** The filter blocks of the two tabs are the same code over different
    frames; [apply_filters] is that block as a function. *)
Definition apply_filters {R : Type} `{Keyed R} (df : list R)
  (selected_students selected_subjects : list string) : list R :=
  let df1 :=
    if negb (isin "All Students" selected_students)
    then filter (fun r => isin (Student r) selected_students) df
    else df in
  if negb (isin "All Subjects" selected_subjects)
  then filter (fun r => isin (Subject r) selected_subjects) df1
  else df1.

(** Replacing a loaded table, for re-running the script on its own output. *)
Definition with_attendance_df (g : Globals) (df : list AttendanceRecord)
  : Globals :=
  mkGlobals df (marks_df g) (events_df g) (today g)
    (selected_students_attendance g) (selected_subjects_attendance g)
    (selected_students_marks g) (selected_subjects_marks g).

Definition with_marks_df (g : Globals) (df : list MarkRecord) : Globals :=
  mkGlobals (attendance_df g) df (events_df g) (today g)
    (selected_students_attendance g) (selected_subjects_attendance g)
    (selected_students_marks g) (selected_subjects_marks g).

(** Changing the sidebar selections of the attendance tab. *)
Definition with_attendance_selection (g : Globals)
  (students subjects : list string) : Globals :=
  mkGlobals (attendance_df g) (marks_df g) (events_df g) (today g)
    students subjects
    (selected_students_marks g) (selected_subjects_marks g).

(** ** Views used to relate the frames

    The columns of a merged row that come from the marks frame, and those
    that come from the summary. *)
Definition mark_of (row : MergedRow) : MarkRecord :=
  mkMark (mrg_Student row) (mrg_Subject row) (mrg_Marks row).

Definition summary_of (row : MergedRow) : AttendanceSummary :=
  mkSummary (mrg_Student row) (mrg_Subject row) (mrg_Attendance_pct row).

(** An attendance row with its status read the way the script reads it:
    the string "Present", or anything else. *)
Definition present_or_absent (r : AttendanceRecord) : AttendanceRecord :=
  mkAttendance (att_Student r) (att_Subject r) (att_Date r)
    (if String.eqb (Status r) "Present" then "Present" else "Absent").

(** ** Sample tables

    The rows of the scenarios worked through below.  2024-01-01 is day
    19723 of the epoch. *)

Definition day (d : Z) : Z := d * NS_PER_DAY.

Definition sample_attendance : list AttendanceRecord :=
  [mkAttendance "A" "Math" (day 19723) "Present";
   mkAttendance "A" "Math" (day 19724) "Absent";
   mkAttendance "B" "Math" (day 19723) "Present";
   mkAttendance "B" "Science" (day 19723) "Present";
   mkAttendance "B" "Science" (day 19724) "Present";
   mkAttendance "B" "Science" (day 19725) "Present";
   mkAttendance "B" "Science" (day 19726) "Absent";
   mkAttendance "D" "Math" (day 19723) "Absent"].

Definition sample_marks : list MarkRecord :=
  [mkMark "A" "Math" (Num 30);
   mkMark "B" "Math" (Num 90);
   mkMark "C" "Math" (Num 10);
   mkMark "B" "Science" (Num 40)].

Definition sample_events : list EventRecord :=
  [mkEvent "Final" (day 19733) "Math";
   mkEvent "Quiz" (day 19726 + 32400000000000) "Math";
   mkEvent "Essay" (day 19730 + 86399000000000) "Science";
   mkEvent "Lab" (day 19722) "Science";
   mkEvent "Recap" (day 19723) "Math";
   mkEvent "Resit" (day 19800) "Math"].

Definition sample (students_att subjects_att students_marks subjects_marks
                     : list string) : Globals :=
  mkGlobals sample_attendance sample_marks sample_events 19723
    students_att subjects_att students_marks subjects_marks.

(** The same tables on a later day, with other selections in the marks
    tab. *)
Definition sample_later (students_marks subjects_marks : list string)
  : Globals :=
  mkGlobals sample_attendance sample_marks sample_events 19740
    ["All Students"] ["All Subjects"] students_marks subjects_marks.

(** A table in which a student is called like the sentinel. *)
Definition sentinel_attendance : list AttendanceRecord :=
  [mkAttendance "All Students" "Math" (day 19723) "Present";
   mkAttendance "Bob" "Math" (day 19723) "Absent"].

(** * Proofs *)

(** ** Lists *)

Section ListFacts.
Context {A : Type}.

Lemma filter_andb (f h : A -> bool) (l : list A) :
  filter h (filter f l) = filter (fun x => f x && h x) l.
Proof.
  induction l as [|x l IH]; simpl; [reflexivity|].
  destruct (f x); simpl; [destruct (h x)|]; now rewrite IH.
Qed.

Lemma filter_all (f : A -> bool) (l : list A) :
  (forall x, In x l -> f x = true) -> filter f l = l.
Proof.
  induction l as [|x l IH]; simpl; intros Hall; [reflexivity|].
  rewrite (Hall x (or_introl eq_refl)), IH; auto.
Qed.

Lemma filter_none (f : A -> bool) (l : list A) :
  (forall x, In x l -> f x = false) -> filter f l = [].
Proof.
  induction l as [|x l IH]; simpl; intros Hall; [reflexivity|].
  rewrite (Hall x (or_introl eq_refl)), IH; auto.
Qed.

Lemma filter_length_all (f : A -> bool) (l : list A) :
  List.length (filter f l) = List.length l <->
  (forall x, In x l -> f x = true).
Proof.
  induction l as [|x l IH]; simpl.
  - split; [intros _ y []|reflexivity].
  - pose proof (filter_length_le f l) as Hle.
    destruct (f x) eqn:Hx; simpl; split.
    + intros Hlen y [<-|Hy]; [assumption|].
      apply IH; [lia|assumption].
    + intros Hall. f_equal. apply IH. auto.
    + intros Hlen. lia.
    + intros Hall. specialize (Hall x (or_introl eq_refl)). congruence.
Qed.

Lemma filter_length_none (f : A -> bool) (l : list A) :
  List.length (filter f l) = 0%nat <-> (forall x, In x l -> f x = false).
Proof.
  split.
  - intros Hlen x Hx. destruct (f x) eqn:Hfx; [|reflexivity].
    assert (Hin : In x (filter f l)) by (apply filter_In; auto).
    destruct (filter f l); [destruct Hin|discriminate].
  - intros Hall. now rewrite filter_none.
Qed.

Lemma insert_sorted_perm (leb : A -> A -> bool) (x : A) (l : list A) :
  Permutation (x :: l) (insert_sorted leb x l).
Proof.
  induction l as [|y l IH]; simpl; [reflexivity|].
  destruct (leb x y); [reflexivity|].
  rewrite perm_swap. now apply perm_skip.
Qed.

Lemma sort_by_perm (leb : A -> A -> bool) (l : list A) :
  Permutation l (sort_by leb l).
Proof.
  induction l as [|x l IH]; simpl; [constructor|].
  rewrite <- insert_sorted_perm. now apply perm_skip.
Qed.

Lemma sort_by_In (leb : A -> A -> bool) (l : list A) (x : A) :
  In x (sort_by leb l) <-> In x l.
Proof.
  split; apply Permutation_in;
    [symmetry|]; apply sort_by_perm.
Qed.

Section Ordered.
Variable leb : A -> A -> bool.
Hypothesis leb_total : forall x y, leb x y = true \/ leb y x = true.
Hypothesis leb_trans :
  forall x y z, leb x y = true -> leb y z = true -> leb x z = true.

Lemma insert_sorted_sorted (x : A) (l : list A) :
  StronglySorted (fun a b => leb a b = true) l ->
  StronglySorted (fun a b => leb a b = true) (insert_sorted leb x l).
Proof.
  induction 1 as [|y l Hl IH Hy]; simpl.
  - repeat constructor.
  - destruct (leb x y) eqn:Hxy.
    + constructor; [now constructor|].
      constructor; [assumption|].
      eapply Forall_impl; [|exact Hy].
      intros z Hz. now apply leb_trans with y.
    + constructor; [assumption|].
      apply Forall_forall. intros z Hz.
      apply (Permutation_in _ (Permutation_sym (insert_sorted_perm leb x l)))
        in Hz.
      destruct Hz as [<-|Hz].
      * destruct (leb_total x y); [congruence|assumption].
      * rewrite Forall_forall in Hy. now apply Hy.
Qed.

Lemma sort_by_sorted (l : list A) :
  StronglySorted (fun a b => leb a b = true) (sort_by leb l).
Proof.
  induction l as [|x l IH]; simpl; [constructor|].
  now apply insert_sorted_sorted.
Qed.
End Ordered.

Section Unique.
Variable eqb : A -> A -> bool.
Hypothesis eqb_spec : forall x y, eqb x y = true <-> x = y.

Lemma unique_In (l : list A) (x : A) : In x (unique eqb l) <-> In x l.
Proof.
  induction l as [|y l IH]; simpl; [reflexivity|].
  rewrite filter_In, IH. split.
  - intros [H|[H _]]; auto.
  - intros [H|H]; [now left|].
    destruct (eqb y x) eqn:E.
    + left. now apply eqb_spec.
    + right. split; [assumption|reflexivity].
Qed.

Lemma unique_NoDup (l : list A) : NoDup (unique eqb l).
Proof.
  induction l as [|y l IH]; simpl; constructor.
  - rewrite filter_In. intros [_ H].
    assert (E : eqb y y = true) by now apply eqb_spec.
    rewrite E in H. discriminate.
  - now apply NoDup_filter.
Qed.
End Unique.
End ListFacts.

(** ** Keys and selections *)

Lemma isin_In (v : string) (values : list string) :
  isin v values = true <-> In v values.
Proof.
  unfold isin. rewrite existsb_exists. split.
  - intros [x [Hx E]]. apply String.eqb_eq in E. now subst.
  - intros H. exists v. split; [assumption|apply String.eqb_refl].
Qed.

Lemma isin_false (v : string) (values : list string) :
  isin v values = false <-> ~ In v values.
Proof.
  rewrite <- isin_In. destruct (isin v values); split; congruence.
Qed.

Lemma key_eqb_eq (a b : key) : key_eqb a b = true <-> a = b.
Proof.
  destruct a as [a1 a2], b as [b1 b2]. unfold key_eqb. simpl.
  rewrite andb_true_iff, !String.eqb_eq. split.
  - intros [-> ->]. reflexivity.
  - intros E. injection E. auto.
Qed.

Lemma group_keys_In {R : Type} `{Keyed R} (df : list R) (k : key) :
  In k (group_keys df) <-> exists r, In r df /\ key_of r = k.
Proof.
  unfold group_keys.
  rewrite sort_by_In, (unique_In key_eqb key_eqb_eq), in_map_iff.
  split; intros [r [H1 H2]]; exists r; auto.
Qed.

Lemma group_keys_NoDup {R : Type} `{Keyed R} (df : list R) :
  NoDup (group_keys df).
Proof.
  unfold group_keys.
  eapply Permutation_NoDup; [apply sort_by_perm|].
  apply unique_NoDup, key_eqb_eq.
Qed.

Lemma group_rows_In {R : Type} `{Keyed R} (df : list R) (k : key) (r : R) :
  In r (group_rows df k) <-> In r df /\ key_of r = k.
Proof.
  unfold group_rows. now rewrite filter_In, key_eqb_eq.
Qed.

Lemma group_rows_nonempty {R : Type} `{Keyed R} (df : list R) (k : key) :
  In k (group_keys df) -> group_rows df k <> [].
Proof.
  rewrite group_keys_In. intros [r [Hr Hk]] E.
  assert (Hin : In r (group_rows df k)) by now apply group_rows_In.
  rewrite E in Hin. destruct Hin.
Qed.

(** ** Cells *)

Lemma num_ltb_lt (x : num) (c : Q) :
  num_ltb x c = true <-> exists q, x = Num q /\ (q < c)%Q.
Proof.
  destruct x as [|q]; simpl.
  - split; [discriminate|]. intros [q [E _]]. discriminate.
  - rewrite negb_true_iff. split.
    + intros Hb. exists q. split; [reflexivity|].
      apply Qnot_le_lt. intros Hle. apply Qle_bool_iff in Hle. congruence.
    + intros [q' [E Hlt]]. injection E as <-.
      destruct (Qle_bool c q) eqn:Hb; [|reflexivity].
      apply Qle_bool_iff in Hb. apply Qle_not_lt in Hb. contradiction.
Qed.

Lemma percent_bounds (p n : Z) :
  0 <= p <= n -> 0 < n ->
  let q := (inject_Z p / inject_Z n * 100)%Q in
  (q == 100 * (inject_Z p / inject_Z n))%Q /\
  (0 <= q)%Q /\ (q <= 100)%Q /\
  ((q == 100)%Q <-> p = n) /\ ((q == 0)%Q <-> p = 0).
Proof.
  intros Hp Hn q. subst q.
  split; [apply Qmult_comm|].
  destruct n as [|n|n]; try lia.
  unfold Qdiv, Qinv, Qmult, Qle, Qeq, inject_Z. cbn [Qnum Qden Z.to_pos].
  rewrite ?Pos2Z.inj_mul, ?Z.mul_1_r.
  repeat split; intros; try nia.
Qed.

Lemma count_true_map {A : Type} (f : A -> bool) (l : list A) :
  count_true (map f l) = List.length (filter f l).
Proof.
  unfold count_true. induction l as [|x l IH]; simpl; [reflexivity|].
  destruct (f x); simpl; now rewrite IH.
Qed.

(** ** The script, tab by tab *)

(** Statements are run in order on an explicit record, so that every
    variable is evaluated once. *)
Ltac step_script :=
  cbv [seq when ifelse render
       assign_filtered_df assign_attendance_summary assign_present_ratio
       assign_pie_data assign_low_attendance assign_filtered_marks_df
       assign_failing_students assign_avg_marks assign_merged_df
       assign_special_attention assign_upcoming assign_near_deadline
       filtered_df attendance_summary present_ratio pie_data low_attendance
       filtered_marks_df failing_students avg_marks merged_df
       special_attention upcoming near_deadline page negb].

(** Case analysis on a test that contains no other test. *)
Ltac split_if :=
  match goal with
  | |- context [if ?c then _ else _] =>
      lazymatch c with
      | context [if _ then _ else _] => fail
      | _ => destruct c
      end
  end.

Ltac run_tab :=
  step_script; repeat (split_if; step_script);
  rewrite <- ?app_assoc; reflexivity.

Lemma sidebar_eq (g : Globals) (s : Session) :
  sidebar g s =
  mkSession (filtered_df s) (attendance_summary s) (present_ratio s)
    (pie_data s) (low_attendance s) (filtered_marks_df s)
    (failing_students s) (avg_marks s) (merged_df s) (special_attention s)
    (upcoming s) (near_deadline s)
    (page s ++
     [st_title "📊 Student Dashboard";
      st_sidebar_header "🔍 Filters";
      st_sidebar_multiselect "Select Students (Attendance)"
        (student_options (attendance_df g)) ["All Students"];
      st_sidebar_multiselect "Select Subjects (Attendance)"
        (subject_options (attendance_df g)) ["All Subjects"];
      st_sidebar_multiselect "Select Students (Marks)"
        (student_options (marks_df g)) ["All Students"];
      st_sidebar_multiselect "Select Subjects (Marks)"
        (subject_options (marks_df g)) ["All Subjects"]]).
Proof.
  destruct s. unfold sidebar. run_tab.
Qed.

Lemma tab1_eq (g : Globals) (s : Session) :
  tab1 g s =
  let f := apply_filters (attendance_df g)
             (selected_students_attendance g)
             (selected_subjects_attendance g) in
  let summary := groupby_Status_apply present_percent f in
  let ratio :=
    num_mul (mean_bool (map (fun r => String.eqb (Status r) "Present") f))
            100%Q in
  let pie := [("Present", ratio); ("Absent", num_rsub 100%Q ratio)] in
  let low :=
    filter (fun r => num_ltb (Attendance_pct r) LOW_ATTENDANCE_THRESHOLD)
           summary in
  mkSession f summary ratio pie low
    (filtered_marks_df s) (failing_students s) (avg_marks s) (merged_df s)
    (special_attention s) (upcoming s) (near_deadline s)
    (page s ++
     [st_header "📘 Attendance Overview";
      st_subheader "Filtered Attendance Data";
      st_dataframe (AttendanceFrame f);
      st_subheader "Attendance % by Student and Subject";
      st_plotly_chart (px_bar_attendance summary);
      st_subheader "Overall Attendance Distribution";
      st_plotly_chart (px_pie pie)] ++
     (if not_empty low
      then [st_warning "⚠️ Students with attendance below 75%:";
            st_dataframe (SummaryFrame low)]
      else [])).
Proof.
  destruct s. unfold tab1, apply_filters.
  destruct (isin "All Students" _), (isin "All Subjects" _); run_tab.
Qed.

Lemma tab2_eq (g : Globals) (s : Session) :
  tab2 g s =
  let f := apply_filters (marks_df g)
             (selected_students_marks g) (selected_subjects_marks g) in
  let failing :=
    filter (fun r => num_ltb (Marks r) FAILING_MARK_THRESHOLD) f in
  let avg := groupby_Student_Marks_mean f in
  let summary := groupby_Status_apply present_percent (attendance_df g) in
  let merged := merge_left f summary in
  let special :=
    filter (fun r =>
              num_ltb (mrg_Marks r) FAILING_MARK_THRESHOLD
              && num_ltb (mrg_Attendance_pct r) LOW_ATTENDANCE_THRESHOLD)
           merged in
  mkSession (filtered_df s) summary (present_ratio s) (pie_data s)
    (low_attendance s) f failing avg merged special
    (upcoming s) (near_deadline s)
    (page s ++
     [st_header "📝 Marks Overview";
      st_subheader "Marks Data";
      st_dataframe (MarksFrame f)] ++
     (if not_empty failing
      then [st_warning "⚠️ Students scoring below 40:";
            st_dataframe (MarksFrame failing)]
      else []) ++
     [st_subheader "Average Marks per Student";
      st_plotly_chart (px_bar_marks avg);
      st_subheader "Subject-wise Marks Distribution";
      st_plotly_chart (px_box f);
      st_subheader "🚨 Students Needing Special Attention"] ++
     (if not_empty special
      then [st_warning
              "⚠️ These students need special attention (low marks & low attendance):";
            st_dataframe (MergedFrame special);
            st_plotly_chart (px_scatter merged)]
      else [st_success
              "✅ No students currently flagged for special attention."])).
Proof.
  destruct s. unfold tab2, apply_filters.
  destruct (isin "All Students" _), (isin "All Subjects" _); run_tab.
Qed.

Lemma tab3_eq (g : Globals) (s : Session) :
  tab3 g s =
  let up :=
    sort_values_Date
      (filter (fun e => today g <=? dt_date (Date e)) (events_df g)) in
  let near := filter (fun e => dt_date (Date e) <=? today g + 7) up in
  mkSession (filtered_df s) (attendance_summary s) (present_ratio s)
    (pie_data s) (low_attendance s) (filtered_marks_df s)
    (failing_students s) (avg_marks s) (merged_df s) (special_attention s)
    up near
    (page s ++
     [st_header "📅 Upcoming Exams & Assignments";
      st_dataframe (EventsFrame up)] ++
     (if not_empty near
      then [st_warning "⚠️ Deadlines within 7 days:";
            st_dataframe (EventsFrame near)]
      else [])).
Proof.
  destruct s. unfold tab3.
  run_tab.
Qed.

(** ** The variables after a full run *)

Ltac run_tabs :=
  unfold run, script, seq;
  rewrite tab3_eq, tab2_eq, tab1_eq, sidebar_eq;
  reflexivity.

Lemma run_filtered_df (g : Globals) :
  filtered_df (run g) =
  apply_filters (attendance_df g)
    (selected_students_attendance g) (selected_subjects_attendance g).
Proof. run_tabs. Qed.

Lemma run_low_attendance (g : Globals) :
  low_attendance (run g) =
  filter (fun r => num_ltb (Attendance_pct r) LOW_ATTENDANCE_THRESHOLD)
         (groupby_Status_apply present_percent (filtered_df (run g))).
Proof. rewrite run_filtered_df. run_tabs. Qed.

Lemma run_present_ratio (g : Globals) :
  present_ratio (run g) =
  num_mul (mean_bool (map (fun r => String.eqb (Status r) "Present")
                          (filtered_df (run g)))) 100%Q.
Proof. rewrite run_filtered_df. run_tabs. Qed.

Lemma run_pie_data (g : Globals) :
  pie_data (run g) =
  [("Present", present_ratio (run g));
   ("Absent", num_rsub 100%Q (present_ratio (run g)))].
Proof. rewrite run_present_ratio, run_filtered_df. run_tabs. Qed.

Lemma run_filtered_marks_df (g : Globals) :
  filtered_marks_df (run g) =
  apply_filters (marks_df g)
    (selected_students_marks g) (selected_subjects_marks g).
Proof. run_tabs. Qed.

Lemma run_failing_students (g : Globals) :
  failing_students (run g) =
  filter (fun r => num_ltb (Marks r) FAILING_MARK_THRESHOLD)
         (filtered_marks_df (run g)).
Proof. rewrite run_filtered_marks_df. run_tabs. Qed.

Lemma run_avg_marks (g : Globals) :
  avg_marks (run g) = groupby_Student_Marks_mean (filtered_marks_df (run g)).
Proof. rewrite run_filtered_marks_df. run_tabs. Qed.

Lemma run_attendance_summary (g : Globals) :
  attendance_summary (run g) =
  groupby_Status_apply present_percent (attendance_df g).
Proof. run_tabs. Qed.

Lemma run_merged_df (g : Globals) :
  merged_df (run g) =
  merge_left (filtered_marks_df (run g))
             (groupby_Status_apply present_percent (attendance_df g)).
Proof. rewrite run_filtered_marks_df. run_tabs. Qed.

Lemma run_special_attention (g : Globals) :
  special_attention (run g) =
  filter (fun r =>
            num_ltb (mrg_Marks r) FAILING_MARK_THRESHOLD
            && num_ltb (mrg_Attendance_pct r) LOW_ATTENDANCE_THRESHOLD)
         (merged_df (run g)).
Proof. rewrite run_merged_df, run_filtered_marks_df. run_tabs. Qed.

Lemma run_upcoming (g : Globals) :
  upcoming (run g) =
  sort_values_Date
    (filter (fun e => today g <=? dt_date (Date e)) (events_df g)).
Proof. run_tabs. Qed.

Lemma run_near_deadline (g : Globals) :
  near_deadline (run g) =
  filter (fun e => dt_date (Date e) <=? today g + 7) (upcoming (run g)).
Proof. rewrite run_upcoming. run_tabs. Qed.

(** ** The filter block *)

Lemma apply_filters_filter {R : Type} `{Keyed R} (df : list R)
  (students subjects : list string) :
  apply_filters df students subjects =
  filter (fun r =>
            (isin "All Students" students || isin (Student r) students)
            && (isin "All Subjects" subjects || isin (Subject r) subjects))
         df.
Proof.
  unfold apply_filters.
  destruct (isin "All Students" students), (isin "All Subjects" subjects);
    cbn [negb orb andb].
  - symmetry. now apply filter_all.
  - reflexivity.
  - apply filter_ext. intros r. now rewrite andb_true_r.
  - apply filter_andb.
Qed.

Lemma apply_filters_In {R : Type} `{Keyed R} (df : list R)
  (students subjects : list string) (r : R) :
  In r (apply_filters df students subjects) <->
  In r df
  /\ (In "All Students" students \/ In (Student r) students)
  /\ (In "All Subjects" subjects \/ In (Subject r) subjects).
Proof.
  rewrite apply_filters_filter, filter_In, andb_true_iff, !orb_true_iff,
    !isin_In.
  reflexivity.
Qed.

Lemma apply_filters_idem {R : Type} `{Keyed R} (df : list R)
  (students subjects : list string) :
  apply_filters (apply_filters df students subjects) students subjects =
  apply_filters df students subjects.
Proof.
  rewrite (apply_filters_filter (apply_filters df students subjects)).
  apply filter_all. intros r Hr.
  rewrite apply_filters_filter in Hr. apply filter_In in Hr. tauto.
Qed.

Lemma apply_filters_id {R : Type} `{Keyed R} (df : list R)
  (students subjects : list string) :
  In "All Students" students -> In "All Subjects" subjects ->
  apply_filters df students subjects = df.
Proof.
  intros Hs Hb. apply isin_In in Hs, Hb.
  unfold apply_filters. now rewrite Hs, Hb.
Qed.

(** * The claims *)

(** C4: in both tabs the filter keeps, in table order, exactly the rows
    that pass both dimensions; a dimension passes a row when the sentinel
    is in its selection or the row's value is in the selection; and an
    empty selection in either dimension leaves no rows. *)
Theorem filter_engine_contract (g : Globals) :
  filtered_df (run g) =
    apply_filters (attendance_df g)
      (selected_students_attendance g) (selected_subjects_attendance g)
  /\ filtered_marks_df (run g) =
    apply_filters (marks_df g)
      (selected_students_marks g) (selected_subjects_marks g)
  /\ forall (R : Type) (K : Keyed R) (df : list R)
       (students subjects : list string),
      apply_filters df students subjects =
        filter (fun r =>
                  (isin "All Students" students || isin (Student r) students)
                  && (isin "All Subjects" subjects
                      || isin (Subject r) subjects))
               df
      /\ (forall r,
             In r (apply_filters df students subjects) <->
             In r df
             /\ (In "All Students" students \/ In (Student r) students)
             /\ (In "All Subjects" subjects \/ In (Subject r) subjects))
      /\ apply_filters df [] subjects = []
      /\ apply_filters df students [] = [].
Proof.
  split; [apply run_filtered_df|].
  split; [apply run_filtered_marks_df|].
  intros R K df students subjects.
  split; [apply apply_filters_filter|].
  split; [apply apply_filters_In|].
  split; rewrite apply_filters_filter; apply filter_none; intros r _; simpl.
  - reflexivity.
  - apply andb_false_r.
Qed.

(** C6: running the filter block again on its own output, with the same
    selections, changes nothing; with the sentinel in both selections the
    block returns the table it was given. *)
Theorem filter_idempotent_identity (g : Globals) :
  filtered_df (run (with_attendance_df g (filtered_df (run g)))) =
    filtered_df (run g)
  /\ filtered_marks_df (run (with_marks_df g (filtered_marks_df (run g)))) =
    filtered_marks_df (run g)
  /\ (In "All Students" (selected_students_attendance g) ->
      In "All Subjects" (selected_subjects_attendance g) ->
      filtered_df (run g) = attendance_df g)
  /\ (In "All Students" (selected_students_marks g) ->
      In "All Subjects" (selected_subjects_marks g) ->
      filtered_marks_df (run g) = marks_df g).
Proof.
  rewrite !run_filtered_df, !run_filtered_marks_df.
  destruct g; cbn [with_attendance_df with_marks_df attendance_df marks_df
    selected_students_attendance selected_subjects_attendance
    selected_students_marks selected_subjects_marks].
  repeat split; try apply apply_filters_idem; apply apply_filters_id.
Qed.

Lemma filter_idempotent_identity_witness :
  let g := sample ["B"; "All Students"] ["All Subjects"]
                  ["All Students"] ["Math"; "All Subjects"] in
  filtered_df (run g) = sample_attendance
  /\ filtered_marks_df (run g) = sample_marks.
Proof.
  intro g.
  destruct (filter_idempotent_identity g) as [_ [_ [Hatt Hmarks]]].
  split.
  - apply Hatt; simpl; auto.
  - apply Hmarks; simpl; auto.
Defined.

(** C10: the sentinel is recognised by its text alone.  With the string
    "All Students" in the selection every student passes, also in a table
    where "All Students" is a student's name; so a selection that keeps a
    row of the student called "All Students" keeps the rows of every
    student (that pass the subject dimension): that student cannot be
    selected alone.  The same holds for "All Subjects". *)
Theorem sentinel_is_magic_string (g : Globals) :
  let students := selected_students_attendance g in
  let subjects := selected_subjects_attendance g in
  (In "All Students" students ->
   forall r, In r (filtered_df (run g)) <->
             In r (attendance_df g)
             /\ (In "All Subjects" subjects \/ In (Subject r) subjects))
  /\ (In "All Subjects" subjects ->
      forall r, In r (filtered_df (run g)) <->
                In r (attendance_df g)
                /\ (In "All Students" students \/ In (Student r) students))
  /\ (forall r, In r (filtered_df (run g)) ->
                Student r = "All Students" ->
      forall r', In r' (attendance_df g) ->
                 In "All Subjects" subjects \/ In (Subject r') subjects ->
                 In r' (filtered_df (run g)))
  /\ (forall r, In r (filtered_df (run g)) ->
                Subject r = "All Subjects" ->
      forall r', In r' (attendance_df g) ->
                 In "All Students" students \/ In (Student r') students ->
                 In r' (filtered_df (run g))).
Proof.
  intros students subjects. rewrite run_filtered_df.
  fold students subjects.
  split; [|split; [|split]].
  - intros Hs r. rewrite apply_filters_In. tauto.
  - intros Hb r. rewrite apply_filters_In. tauto.
  - intros r Hr Hname r' Hr' Hsub. apply apply_filters_In in Hr.
    apply apply_filters_In. rewrite Hname in Hr. tauto.
  - intros r Hr Hname r' Hr' Hstu. apply apply_filters_In in Hr.
    apply apply_filters_In. rewrite Hname in Hr. tauto.
Qed.

Lemma sentinel_is_magic_string_witness :
  let g := mkGlobals sentinel_attendance [] [] 19723
             ["All Students"] ["All Subjects"] [] [] in
  In (mkAttendance "Bob" "Math" (day 19723) "Absent") (filtered_df (run g))
  /\ filtered_df (run g) = sentinel_attendance.
Proof.
  intro g. split; [|reflexivity].
  destruct (sentinel_is_magic_string g) as [_ [_ [Hkeep _]]].
  apply (Hkeep (mkAttendance "All Students" "Math" (day 19723) "Present")).
  - vm_compute. auto.
  - reflexivity.
  - simpl. auto.
  - simpl. auto.
Defined.

(** In such a table the option list offers the string twice, and the
    default selection is the sentinel. *)
Example sentinel_options :
  student_options sentinel_attendance = ["All Students"; "All Students"; "Bob"]
  /\ filtered_df (run (mkGlobals sentinel_attendance [] [] 19723
                         ["Bob"] ["All Subjects"] [] [])) =
     [mkAttendance "Bob" "Math" (day 19723) "Absent"].
Proof. split; reflexivity. Qed.

(** ** Attendance percentage *)

Lemma present_percent_group (grp : list AttendanceRecord) :
  grp <> [] ->
  let present := filter (fun r => String.eqb (Status r) "Present") grp in
  exists q,
    present_percent (map Status grp) = Num q
    /\ (q == 100 * (inject_Z (Z.of_nat (List.length present))
                    / inject_Z (Z.of_nat (List.length grp))))%Q
    /\ (0 <= q)%Q /\ (q <= 100)%Q
    /\ ((q == 100)%Q <-> forall r, In r grp -> Status r = "Present")
    /\ ((q == 0)%Q <-> forall r, In r grp -> Status r <> "Present").
Proof.
  intros Hne present.
  unfold present_percent. rewrite map_map.
  set (f := fun r : AttendanceRecord => String.eqb (Status r) "Present").
  assert (Hmean : mean_bool (map f grp) =
                  Num (inject_Z (Z.of_nat (List.length present))
                       / inject_Z (Z.of_nat (List.length grp)))%Q).
  { destruct grp as [|r grp]; [congruence|].
    unfold mean_bool. cbn [map].
    change (f r :: map f grp) with (map f (r :: grp)).
    now rewrite count_true_map, length_map. }
  rewrite Hmean. cbn [num_mul].
  assert (Hle : (List.length present <= List.length grp)%nat)
    by apply filter_length_le.
  assert (Hpos : (0 < List.length grp)%nat).
  { destruct grp; [congruence|simpl; lia]. }
  destruct (percent_bounds (Z.of_nat (List.length present))
              (Z.of_nat (List.length grp)))
    as [Heq [H0 [H100 [Hall Hnone]]]]; [lia|lia|].
  eexists. split; [reflexivity|].
  split; [exact Heq|]. split; [exact H0|]. split; [exact H100|].
  split.
  - rewrite Hall, Nat2Z.inj_iff. unfold present.
    rewrite filter_length_all. unfold f.
    split; intros H r Hr; [apply String.eqb_eq|apply String.eqb_eq]; auto.
  - rewrite Hnone. change 0 with (Z.of_nat 0). rewrite Nat2Z.inj_iff.
    unfold present. rewrite filter_length_none. unfold f.
    split; intros H r Hr; apply String.eqb_neq; auto.
Qed.

Lemma groupby_Status_apply_keys (f : list string -> num)
  (df : list AttendanceRecord) :
  map key_of (groupby_Status_apply f df) = group_keys df.
Proof.
  unfold groupby_Status_apply. rewrite map_map.
  rewrite <- (map_id (group_keys df)) at 2.
  apply map_ext. intros [a b]. reflexivity.
Qed.

Lemma attendance_percent_group_of_row (df : list AttendanceRecord)
  (row : AttendanceSummary) :
  In row (groupby_Status_apply present_percent df) ->
  group_rows df (key_of row) <> []
  /\ exists q, Attendance_pct row = Num q.
Proof.
  intros Hrow. unfold groupby_Status_apply in Hrow.
  apply in_map_iff in Hrow. destruct Hrow as [[a b] [<- Hk]].
  change (key_of (mkSummary a b _)) with (a, b). cbn [Attendance_pct].
  pose proof (group_rows_nonempty df (a, b) Hk) as Hne.
  split; [exact Hne|].
  destruct (present_percent_group (group_rows df (a, b)) Hne)
    as [q [Hq _]].
  exists q. exact Hq.
Qed.

Lemma tab1_attendance_summary (g : Globals) (s : Session) :
  attendance_summary (tab1 g s) =
  groupby_Status_apply present_percent (filtered_df (tab1 g s)).
Proof. rewrite tab1_eq. reflexivity. Qed.

(** C1: the aggregation returns one row per observed (Student, Subject)
    pair; the row's percentage is 100 times the number of Present records
    of the pair over the number of its records, the pair has at least one
    record, the percentage lies between 0 and 100, is 100 exactly when all
    statuses of the pair are Present and 0 exactly when none is.  Tab 1
    applies it to the filtered table, tab 2 to the whole table. *)
Theorem attendance_percent_spec (df : list AttendanceRecord) :
  let summary := groupby_Status_apply present_percent df in
  NoDup (map key_of summary)
  /\ (forall k, In k (map key_of summary) <->
                exists r, In r df /\ key_of r = k)
  /\ (forall row, In row summary ->
      let grp := group_rows df (key_of row) in
      let present := filter (fun r => String.eqb (Status r) "Present") grp in
      (forall r, In r grp <->
                 In r df /\ Student r = Student row
                 /\ Subject r = Subject row)
      /\ grp <> []
      /\ exists q,
          Attendance_pct row = Num q
          /\ (q == 100 * (inject_Z (Z.of_nat (List.length present))
                          / inject_Z (Z.of_nat (List.length grp))))%Q
          /\ (0 <= q)%Q /\ (q <= 100)%Q
          /\ ((q == 100)%Q <-> forall r, In r grp -> Status r = "Present")
          /\ ((q == 0)%Q <-> forall r, In r grp -> Status r <> "Present"))
  /\ (forall g s, attendance_summary (tab1 g s) =
                  groupby_Status_apply present_percent (filtered_df (tab1 g s)))
  /\ (forall g, attendance_summary (run g) =
                groupby_Status_apply present_percent (attendance_df g)).
Proof.
  intros summary. subst summary.
  rewrite groupby_Status_apply_keys.
  split; [apply group_keys_NoDup|].
  split; [apply group_keys_In|].
  split; [|split; [apply tab1_attendance_summary|apply run_attendance_summary]].
  intros row Hrow grp present.
  unfold groupby_Status_apply in Hrow. apply in_map_iff in Hrow.
  destruct Hrow as [[a b] [Erow Hk]].
  assert (Ekey : key_of row = (a, b)) by (subst row; reflexivity).
  assert (Epct : Attendance_pct row =
                 present_percent (map Status (group_rows df (a, b))))
    by (subst row; reflexivity).
  subst grp present. rewrite Ekey.
  split.
  - intros r. rewrite group_rows_In.
    replace (Student row) with a by (subst row; reflexivity).
    replace (Subject row) with b by (subst row; reflexivity).
    unfold key_of. split.
    + intros [Hr E]. injection E as E1 E2. auto.
    + intros [Hr [E1 E2]]. rewrite E1, E2. auto.
  - split; [now apply group_rows_nonempty|].
    rewrite Epct. apply present_percent_group.
    now apply group_rows_nonempty.
Qed.

Lemma attendance_percent_spec_witness :
  exists q,
    In (mkSummary "A" "Math" (Num q))
       (groupby_Status_apply present_percent sample_attendance)
    /\ (q == 50)%Q /\ (0 <= q)%Q /\ (q <= 100)%Q.
Proof.
  destruct (attendance_percent_spec sample_attendance) as [_ [_ [Hrow _]]].
  destruct (Hrow (mkSummary "A" "Math" (Num (1 / 2 * 100)%Q)))
    as [_ [_ [q [Hq [_ [H0 [H100 _]]]]]]].
  - vm_compute. auto.
  - injection Hq as <-.
    exists (1 / 2 * 100)%Q.
    split; [vm_compute; auto|].
    split; [reflexivity|].
    split; assumption.
Defined.

(** ** Threshold lists *)

(** C3: the low-attendance list is the summary of the filtered attendance
    table restricted to the rows with a percentage strictly below 75, and
    the failing-marks list is the filtered marks table restricted to the
    rows with marks strictly below 40; a row at exactly 75 (resp. 40) is in
    neither. *)
Theorem threshold_lists_strict (g : Globals) :
  let summary := groupby_Status_apply present_percent (filtered_df (run g)) in
  low_attendance (run g) =
    filter (fun r => num_ltb (Attendance_pct r) 75%Q) summary
  /\ (forall row,
         In row (low_attendance (run g)) <->
         In row summary
         /\ exists q, Attendance_pct row = Num q /\ (q < 75)%Q)
  /\ (forall row q,
         Attendance_pct row = Num q -> (q == 75)%Q ->
         ~ In row (low_attendance (run g)))
  /\ failing_students (run g) =
       filter (fun r => num_ltb (Marks r) 40%Q) (filtered_marks_df (run g))
  /\ (forall m,
         In m (failing_students (run g)) <->
         In m (filtered_marks_df (run g))
         /\ exists q, Marks m = Num q /\ (q < 40)%Q)
  /\ (forall m q,
         Marks m = Num q -> (q == 40)%Q ->
         ~ In m (failing_students (run g))).
Proof.
  intros summary. subst summary.
  rewrite run_low_attendance, run_failing_students.
  unfold LOW_ATTENDANCE_THRESHOLD, FAILING_MARK_THRESHOLD.
  split; [reflexivity|].
  split; [intros row; now rewrite filter_In, num_ltb_lt|].
  split.
  { intros row q Hq H75 Hin. apply filter_In in Hin.
    destruct Hin as [_ Hlt]. apply num_ltb_lt in Hlt.
    destruct Hlt as [q' [E Hlt]]. rewrite Hq in E. injection E as <-.
    rewrite H75 in Hlt. revert Hlt. apply Qlt_irrefl. }
  split; [reflexivity|].
  split; [intros m; now rewrite filter_In, num_ltb_lt|].
  intros m q Hq H40 Hin. apply filter_In in Hin.
  destruct Hin as [_ Hlt]. apply num_ltb_lt in Hlt.
  destruct Hlt as [q' [E Hlt]]. rewrite Hq in E. injection E as <-.
  rewrite H40 in Hlt. revert Hlt. apply Qlt_irrefl.
Qed.

Lemma threshold_lists_strict_witness :
  let g := sample ["All Students"] ["All Subjects"]
                  ["All Students"] ["All Subjects"] in
  let at75 := mkSummary "B" "Science" (Num (3 / 4 * 100)%Q) in
  let at40 := mkMark "B" "Science" (Num 40) in
  (In at75 (groupby_Status_apply present_percent (filtered_df (run g)))
   /\ ~ In at75 (low_attendance (run g)))
  /\ (In at40 (filtered_marks_df (run g))
      /\ ~ In at40 (failing_students (run g))).
Proof.
  intros g at75 at40.
  destruct (threshold_lists_strict g) as [_ [_ [Hlow [_ [_ Hfail]]]]].
  split; split.
  - vm_compute. auto 10.
  - apply (Hlow at75 (3 / 4 * 100)%Q); reflexivity.
  - vm_compute. auto 10.
  - apply (Hfail at40 40%Q); reflexivity.
Defined.

(** ** The left join *)

Lemma merge_left_In (left : list MarkRecord) (right : list AttendanceSummary)
  (row : MergedRow) :
  In row (merge_left left right) <->
  exists m,
    In m left
    /\ mrg_Student row = Student m /\ mrg_Subject row = Subject m
    /\ mrg_Marks row = Marks m
    /\ ((exists s, In s right /\ key_of s = key_of m
                   /\ mrg_Attendance_pct row = Attendance_pct s)
        \/ ((forall s, In s right -> key_of s <> key_of m)
            /\ mrg_Attendance_pct row = NaN)).
Proof.
  unfold merge_left. rewrite in_flat_map.
  split.
  - intros [m [Hm Hrow]]. exists m. split; [assumption|].
    destruct (filter _ right) as [|s ss] eqn:Hmatch.
    + destruct Hrow as [<-|[]]. cbn.
      repeat split. right. split; [|reflexivity].
      intros s Hs E.
      assert (Hin : In s (filter
                (fun s => key_eqb (key_of s) (key_of m)) right))
        by (apply filter_In; split; [assumption|now apply key_eqb_eq]).
      rewrite Hmatch in Hin. destruct Hin.
    + apply in_map_iff in Hrow. destruct Hrow as [s' [<- Hs']]. cbn.
      repeat split. left. exists s'.
      rewrite <- Hmatch in Hs'. apply filter_In in Hs'.
      destruct Hs' as [Hs' E]. apply key_eqb_eq in E. auto.
  - intros [m [Hm [E1 [E2 [E3 Hpct]]]]]. exists m. split; [assumption|].
    assert (Erow : row = mkMerged (Student m) (Subject m) (Marks m)
                           (mrg_Attendance_pct row)).
    { destruct row; cbn in *. congruence. }
    destruct Hpct as [[s [Hs [Ek Ep]]]|[Hnone Ep]].
    + assert (Hin : In s (filter
                (fun s => key_eqb (key_of s) (key_of m)) right))
        by (apply filter_In; split; [assumption|now apply key_eqb_eq]).
      destruct (filter _ right) as [|s0 ss]; [destruct Hin|].
      apply in_map_iff. exists s. split; [|assumption].
      rewrite Erow, Ep. reflexivity.
    + rewrite (filter_none _ right).
      * left. rewrite Erow, Ep. reflexivity.
      * intros s Hs. destruct (key_eqb (key_of s) (key_of m)) eqn:E;
          [|reflexivity].
        apply key_eqb_eq in E. now apply Hnone in E.
Qed.

(** C2: the merged frame is the left join of the filtered marks with the
    summary of the whole attendance table; special attention keeps exactly
    its rows with marks below 40 and a percentage below 75; a mark record
    without a summary row is in the merged frame with a missing percentage,
    and no special-attention row carries its (Student, Subject). *)
Theorem special_attention_join (g : Globals) :
  let marks := filtered_marks_df (run g) in
  let summary := groupby_Status_apply present_percent (attendance_df g) in
  merged_df (run g) = merge_left marks summary
  /\ special_attention (run g) =
       filter (fun r => num_ltb (mrg_Marks r) 40%Q
                        && num_ltb (mrg_Attendance_pct r) 75%Q)
              (merged_df (run g))
  /\ (forall row,
         In row (merged_df (run g)) <->
         exists m,
           In m marks
           /\ mrg_Student row = Student m /\ mrg_Subject row = Subject m
           /\ mrg_Marks row = Marks m
           /\ ((exists s, In s summary /\ key_of s = key_of m
                          /\ mrg_Attendance_pct row = Attendance_pct s)
               \/ ((forall s, In s summary -> key_of s <> key_of m)
                   /\ mrg_Attendance_pct row = NaN)))
  /\ (forall row,
         In row (special_attention (run g)) <->
         In row (merged_df (run g))
         /\ exists mk pct,
             mrg_Marks row = Num mk /\ mrg_Attendance_pct row = Num pct
             /\ (mk < 40)%Q /\ (pct < 75)%Q)
  /\ (forall m,
         In m marks ->
         (forall s, In s summary -> key_of s <> key_of m) ->
         In (mkMerged (Student m) (Subject m) (Marks m) NaN)
            (merged_df (run g))
         /\ forall row, In row (special_attention (run g)) ->
                        key_of row <> key_of m).
Proof.
  intros marks summary.
  assert (Hmerged : merged_df (run g) = merge_left marks summary)
    by apply run_merged_df.
  assert (Hspecial : forall row,
             In row (special_attention (run g)) <->
             In row (merged_df (run g))
             /\ exists mk pct,
                 mrg_Marks row = Num mk /\ mrg_Attendance_pct row = Num pct
                 /\ (mk < 40)%Q /\ (pct < 75)%Q).
  { intros row. rewrite run_special_attention, filter_In, andb_true_iff.
    unfold FAILING_MARK_THRESHOLD, LOW_ATTENDANCE_THRESHOLD.
    rewrite !num_ltb_lt. split.
    - intros [Hin [[mk [E1 H1]] [pct [E2 H2]]]]. split; [assumption|].
      exists mk, pct. auto.
    - intros [Hin [mk [pct [E1 [E2 [H1 H2]]]]]]. split; [assumption|].
      split; [exists mk|exists pct]; auto. }
  split; [exact Hmerged|].
  split; [apply run_special_attention|].
  split; [intros row; rewrite Hmerged; apply merge_left_In|].
  split; [exact Hspecial|].
  intros m Hm Hnone. split.
  - rewrite Hmerged. apply merge_left_In. exists m. cbn. auto 10.
  - intros row Hrow Ekey. apply Hspecial in Hrow.
    destruct Hrow as [Hin [mk [pct [_ [Epct _]]]]].
    rewrite Hmerged in Hin. apply merge_left_In in Hin.
    destruct Hin as [m' [_ [E1 [E2 [_ Hpct]]]]].
    assert (Ekey' : key_of m' = key_of m).
    { rewrite <- Ekey. unfold key_of. cbn. now rewrite E1, E2. }
    destruct Hpct as [[s [Hs [Es _]]]|[_ Enan]].
    + apply (Hnone s Hs). congruence.
    + congruence.
Qed.

Lemma special_attention_join_witness :
  let g := sample ["All Students"] ["All Subjects"]
                  ["All Students"] ["All Subjects"] in
  In (mkMerged "C" "Math" (Num 10) NaN) (merged_df (run g))
  /\ (forall row, In row (special_attention (run g)) ->
                  key_of row <> ("C", "Math"))
  /\ special_attention (run g) = [mkMerged "A" "Math" (Num 30) (Num (1 / 2 * 100)%Q)].
Proof.
  intros g.
  destruct (special_attention_join g) as [_ [_ [_ [_ Hmissing]]]].
  destruct (Hmissing (mkMark "C" "Math" (Num 10))) as [Hin Hout].
  - vm_compute. auto 10.
  - intros s Hs. vm_compute in Hs.
    repeat (destruct Hs as [<-|Hs]; [discriminate|]). destruct Hs.
  - split; [exact Hin|]. split; [exact Hout|]. reflexivity.
Defined.

(** C5: special attention is computed from the summary of the whole
    attendance table, so it is the same for any two selections of the
    attendance tab (tables and marks selections fixed). *)
Theorem special_attention_ignores_attendance_filters (g : Globals)
  (students1 subjects1 students2 subjects2 : list string) :
  let g1 := with_attendance_selection g students1 subjects1 in
  let g2 := with_attendance_selection g students2 subjects2 in
  attendance_summary (run g1) =
    groupby_Status_apply present_percent (attendance_df g)
  /\ merged_df (run g1) = merged_df (run g2)
  /\ special_attention (run g1) = special_attention (run g2)
  /\ (forall s, tab2 g1 s = tab2 g2 s).
Proof.
  intros g1 g2.
  rewrite !run_special_attention, !run_merged_df, !run_filtered_marks_df,
    run_attendance_summary.
  split; [reflexivity|]. split; [reflexivity|]. split; [reflexivity|].
  intros s. rewrite !tab2_eq. reflexivity.
Qed.

(** The low-attendance list of tab 1, by contrast, follows the attendance
    selection. *)
Example low_attendance_follows_attendance_filters :
  let g := sample ["All Students"] ["All Subjects"]
                  ["All Students"] ["All Subjects"] in
  map key_of (low_attendance (run g)) = [("A", "Math"); ("D", "Math")]
  /\ map key_of
       (low_attendance (run (with_attendance_selection g ["D"] ["Math"]))) =
     [("D", "Math")]
  /\ special_attention (run (with_attendance_selection g ["D"] ["Math"])) =
     special_attention (run g).
Proof. split; [|split]; vm_compute; reflexivity. Qed.

(** ** Events *)

Lemma Permutation_filter {A : Type} (f : A -> bool) (l l' : list A) :
  Permutation l l' -> Permutation (filter f l) (filter f l').
Proof.
  induction 1 as [|x l l' _ IH|x y l|l l' l'' _ IH1 _ IH2]; simpl.
  - constructor.
  - destruct (f x); [now apply perm_skip|assumption].
  - destruct (f x), (f y); try reflexivity. apply perm_swap.
  - now transitivity (filter f l').
Qed.

Lemma StronglySorted_impl {A : Type} (P Q : A -> A -> Prop) (l : list A) :
  (forall a b, P a b -> Q a b) -> StronglySorted P l -> StronglySorted Q l.
Proof.
  intros HPQ. induction 1 as [|x l _ IH Hx]; constructor; [assumption|].
  eapply Forall_impl; [|exact Hx]. intros b. apply HPQ.
Qed.

Lemma sort_values_Date_sorted (df : list EventRecord) :
  StronglySorted (fun a b => Date a <= Date b) (sort_values_Date df).
Proof.
  unfold sort_values_Date.
  apply StronglySorted_impl
    with (P := fun a b => (Date a <=? Date b) = true).
  - intros a b. apply Z.leb_le.
  - apply sort_by_sorted.
    + intros x y. rewrite !Z.leb_le. lia.
    + intros x y z. rewrite !Z.leb_le. lia.
Qed.

Lemma dt_date_mono (a b : Z) : a <= b -> dt_date a <= dt_date b.
Proof.
  intros Hab. unfold dt_date, NS_PER_DAY. apply Z.div_le_mono; lia.
Qed.

(** C7: the upcoming table holds exactly the events dated today or later,
    each as often as in the events table, in ascending order of Date; the
    near-deadline list is the part of it dated at most seven days after
    today, that is exactly the events dated in [today, today + 7]. *)
Theorem events_upcoming_and_near_deadline (g : Globals) :
  let up := upcoming (run g) in
  let near := near_deadline (run g) in
  Permutation up
    (filter (fun e => today g <=? dt_date (Date e)) (events_df g))
  /\ (forall e, In e up <->
                In e (events_df g) /\ today g <= dt_date (Date e))
  /\ StronglySorted (fun a b => Date a <= Date b) up
  /\ StronglySorted (fun a b => dt_date (Date a) <= dt_date (Date b)) up
  /\ near = filter (fun e => dt_date (Date e) <=? today g + 7) up
  /\ Permutation near
       (filter (fun e => (today g <=? dt_date (Date e))
                         && (dt_date (Date e) <=? today g + 7))
               (events_df g))
  /\ (forall e, In e near <->
                In e (events_df g)
                /\ today g <= dt_date (Date e) <= today g + 7).
Proof.
  intros up near. subst up near.
  rewrite run_near_deadline, run_upcoming.
  set (future := filter (fun e => today g <=? dt_date (Date e)) (events_df g)).
  assert (Hperm : Permutation (sort_values_Date future) future)
    by (symmetry; apply sort_by_perm).
  assert (Hin : forall e, In e (sort_values_Date future) <->
                          In e (events_df g) /\ today g <= dt_date (Date e)).
  { intros e. unfold sort_values_Date. rewrite sort_by_In. unfold future.
    now rewrite filter_In, Z.leb_le. }
  split; [exact Hperm|].
  split; [exact Hin|].
  split; [apply sort_values_Date_sorted|].
  split.
  { eapply StronglySorted_impl; [|apply sort_values_Date_sorted].
    intros a b. apply dt_date_mono. }
  split; [reflexivity|].
  split.
  { rewrite (Permutation_filter _ _ _ Hperm). unfold future.
    now rewrite filter_andb. }
  intros e. rewrite filter_In, Hin, Z.leb_le. tauto.
Qed.

Example events_scenario :
  let g := sample ["All Students"] ["All Subjects"]
                  ["All Students"] ["All Subjects"] in
  map Event (upcoming (run g)) = ["Recap"; "Quiz"; "Essay"; "Final"; "Resit"]
  /\ map Event (near_deadline (run g)) = ["Recap"; "Quiz"; "Essay"].
Proof. split; reflexivity. Qed.

(** ** Empty states *)

(** C8: with no special-attention row, tab 2 ends with the all-clear
    message and shows neither the special-attention table nor the scatter
    plot; with rows it ends with the warning, the table and the plot.  With
    no near-deadline event, tab 3 shows its header and the upcoming table
    and nothing else; with events it adds a warning and their table. *)
Theorem empty_state_asymmetry (g : Globals) (s : Session) :
  (special_attention (tab2 g s) = [] ->
   exists shown,
     page (tab2 g s) =
       page s ++ shown ++
       [st_success "✅ No students currently flagged for special attention."]
     /\ forall w, In w shown ->
          (forall rows, w <> st_dataframe (MergedFrame rows))
          /\ (forall rows, w <> st_plotly_chart (px_scatter rows))
          /\ (forall text, w <> st_success text))
  /\ (special_attention (tab2 g s) <> [] ->
      exists shown,
        page (tab2 g s) =
          page s ++ shown ++
          [st_warning
             "⚠️ These students need special attention (low marks & low attendance):";
           st_dataframe (MergedFrame (special_attention (tab2 g s)));
           st_plotly_chart (px_scatter (merged_df (tab2 g s)))]
        /\ forall w text, In w shown -> w <> st_success text)
  /\ (near_deadline (tab3 g s) = [] ->
      page (tab3 g s) =
        page s ++
        [st_header "📅 Upcoming Exams & Assignments";
         st_dataframe (EventsFrame (upcoming (tab3 g s)))])
  /\ (near_deadline (tab3 g s) <> [] ->
      page (tab3 g s) =
        page s ++
        [st_header "📅 Upcoming Exams & Assignments";
         st_dataframe (EventsFrame (upcoming (tab3 g s)));
         st_warning "⚠️ Deadlines within 7 days:";
         st_dataframe (EventsFrame (near_deadline (tab3 g s)))]).
Proof.
  rewrite tab2_eq, tab3_eq.
  cbn [special_attention merged_df near_deadline upcoming page].
  set (marks := apply_filters (marks_df g) _ _).
  set (failing := filter _ marks).
  set (special := filter _ (merge_left marks _)).
  set (near := filter _ (sort_values_Date _)).
  split; [|split; [|split]].
  - intros Hempty. rewrite Hempty. cbn [not_empty].
    match goal with
    | |- exists shown, _ ++ ?A ++ ?F ++ ?B ++ _ = _ /\ _ =>
        exists (A ++ F ++ B)
    end.
    split; [now rewrite <- !app_assoc|].
    intros w Hw. apply in_app_or in Hw. destruct Hw as [Hw|Hw].
    + repeat (destruct Hw as [<-|Hw]; [repeat split; discriminate|]).
      destruct Hw.
    + apply in_app_or in Hw. destruct Hw as [Hw|Hw].
      * destruct (not_empty failing);
          repeat (destruct Hw as [<-|Hw]; [repeat split; discriminate|]);
          destruct Hw.
      * repeat (destruct Hw as [<-|Hw]; [repeat split; discriminate|]).
        destruct Hw.
  - intros Hne. destruct special as [|row rows]; [congruence|].
    cbn [not_empty].
    match goal with
    | |- exists shown, _ ++ ?A ++ ?F ++ ?B ++ _ = _ /\ _ =>
        exists (A ++ F ++ B)
    end.
    split; [now rewrite <- !app_assoc|].
    intros w text Hw. apply in_app_or in Hw. destruct Hw as [Hw|Hw].
    + repeat (destruct Hw as [<-|Hw]; [discriminate|]). destruct Hw.
    + apply in_app_or in Hw. destruct Hw as [Hw|Hw].
      * destruct (not_empty failing);
          repeat (destruct Hw as [<-|Hw]; [discriminate|]); destruct Hw.
      * repeat (destruct Hw as [<-|Hw]; [discriminate|]). destruct Hw.
  - intros Hempty. rewrite Hempty. reflexivity.
  - intros Hne. destruct near as [|e near]; [congruence|]. reflexivity.
Qed.

Lemma empty_state_asymmetry_witness :
  let g := sample_later ["B"] ["All Subjects"] in
  (exists shown,
      page (tab2 g fresh) =
        shown ++
        [st_success "✅ No students currently flagged for special attention."])
  /\ page (tab3 g fresh) =
       [st_header "📅 Upcoming Exams & Assignments";
        st_dataframe (EventsFrame [mkEvent "Resit" (day 19800) "Math"])].
Proof.
  intros g.
  destruct (empty_state_asymmetry g fresh) as [Hclear [_ [Hquiet _]]].
  split.
  - destruct Hclear as [shown [Hpage _]]; [reflexivity|].
    exists shown. exact Hpage.
  - rewrite Hquiet; reflexivity.
Defined.

Lemma student_keys_In (df : list MarkRecord) (s : string) :
  In s (student_keys df) <-> exists r, In r df /\ Student r = s.
Proof.
  unfold student_keys.
  rewrite sort_by_In, (unique_In String.eqb String.eqb_eq), in_map_iff.
  split; intros [r [H1 H2]]; exists r; auto.
Qed.

(** C9: a selection that leaves no attendance rows gives an empty summary,
    an empty low-attendance list and a pie pair of two missing values; one
    that leaves no mark rows gives empty failing, average, merged and
    special-attention frames; the page still shows every table and chart of
    the tab, on empty frames, and no alert.  Every group of the grouped
    aggregations has at least one row, so the percentage of a group is a
    number, never the missing value of an empty mean. *)
Theorem zero_rows_are_tolerated :
  (forall g s,
      filtered_df (tab1 g s) = [] ->
      attendance_summary (tab1 g s) = []
      /\ low_attendance (tab1 g s) = []
      /\ present_ratio (tab1 g s) = NaN
      /\ pie_data (tab1 g s) = [("Present", NaN); ("Absent", NaN)]
      /\ page (tab1 g s) =
           page s ++
           [st_header "📘 Attendance Overview";
            st_subheader "Filtered Attendance Data";
            st_dataframe (AttendanceFrame []);
            st_subheader "Attendance % by Student and Subject";
            st_plotly_chart (px_bar_attendance []);
            st_subheader "Overall Attendance Distribution";
            st_plotly_chart (px_pie [("Present", NaN); ("Absent", NaN)])])
  /\ (forall g s,
         filtered_marks_df (tab2 g s) = [] ->
         failing_students (tab2 g s) = []
         /\ avg_marks (tab2 g s) = []
         /\ merged_df (tab2 g s) = []
         /\ special_attention (tab2 g s) = []
         /\ page (tab2 g s) =
              page s ++
              [st_header "📝 Marks Overview";
               st_subheader "Marks Data";
               st_dataframe (MarksFrame []);
               st_subheader "Average Marks per Student";
               st_plotly_chart (px_bar_marks []);
               st_subheader "Subject-wise Marks Distribution";
               st_plotly_chart (px_box []);
               st_subheader "🚨 Students Needing Special Attention";
               st_success
                 "✅ No students currently flagged for special attention."])
  /\ (forall g,
         selected_students_attendance g = []
         \/ selected_subjects_attendance g = [] ->
         filtered_df (run g) = []
         /\ low_attendance (run g) = []
         /\ pie_data (run g) = [("Present", NaN); ("Absent", NaN)])
  /\ (forall g,
         selected_students_marks g = [] \/ selected_subjects_marks g = [] ->
         filtered_marks_df (run g) = []
         /\ failing_students (run g) = []
         /\ avg_marks (run g) = []
         /\ special_attention (run g) = [])
  /\ (forall (df : list AttendanceRecord) row,
         In row (groupby_Status_apply present_percent df) ->
         group_rows df (key_of row) <> []
         /\ exists q, Attendance_pct row = Num q)
  /\ (forall (df : list MarkRecord) s,
         In s (map avg_Student (groupby_Student_Marks_mean df)) ->
         filter (fun r => String.eqb (Student r) s) df <> []).
Proof.
  split; [|split; [|split; [|split; [|split]]]].
  - intros g s. rewrite tab1_eq.
    cbn [filtered_df attendance_summary low_attendance present_ratio
         pie_data page].
    intros ->. repeat split.
  - intros g s. rewrite tab2_eq.
    cbn [filtered_marks_df failing_students avg_marks merged_df
         special_attention page].
    intros ->. repeat split.
  - intros g Hsel.
    assert (Hempty : filtered_df (run g) = []).
    { rewrite run_filtered_df, apply_filters_filter.
      apply filter_none. intros r _.
      destruct Hsel as [-> | ->]; simpl; [reflexivity|apply andb_false_r]. }
    rewrite run_low_attendance, run_pie_data, run_present_ratio, Hempty.
    repeat split.
  - intros g Hsel.
    assert (Hempty : filtered_marks_df (run g) = []).
    { rewrite run_filtered_marks_df, apply_filters_filter.
      apply filter_none. intros r _.
      destruct Hsel as [-> | ->]; simpl; [reflexivity|apply andb_false_r]. }
    rewrite run_special_attention, run_merged_df, run_avg_marks,
      run_failing_students, Hempty.
    repeat split.
  - intros df row Hrow.
    destruct (attendance_percent_group_of_row df row Hrow) as [Hne Hq].
    split; [exact Hne|]. exact Hq.
  - intros df s Hs. unfold groupby_Student_Marks_mean in Hs.
    rewrite map_map in Hs. cbn [avg_Student] in Hs. rewrite map_id in Hs.
    apply student_keys_In in Hs. destruct Hs as [r [Hr E]]. intros Hnil.
    assert (Hin : In r (filter (fun r => String.eqb (Student r) s) df))
      by (apply filter_In; split; [assumption|now apply String.eqb_eq]).
    rewrite Hnil in Hin. destruct Hin.
Qed.

Lemma zero_rows_are_tolerated_witness :
  let g := sample [] ["All Subjects"] ["All Students"] [] in
  (filtered_df (run g) = []
   /\ low_attendance (run g) = []
   /\ pie_data (run g) = [("Present", NaN); ("Absent", NaN)])
  /\ (filtered_marks_df (run g) = []
      /\ failing_students (run g) = []
      /\ avg_marks (run g) = []
      /\ special_attention (run g) = []).
Proof.
  intros g.
  destruct zero_rows_are_tolerated as [_ [_ [Hatt [Hmarks _]]]].
  split.
  - apply Hatt. left. reflexivity.
  - apply Hmarks. right. reflexivity.
Defined.

(** * Further properties *)

(** ** The order of group keys *)

Lemma ascii_compare_refl (a : Ascii.ascii) : Ascii.compare a a = Eq.
Proof. unfold Ascii.compare. apply N.compare_refl. Qed.

Lemma ascii_compare_lt_trans (a b c : Ascii.ascii) :
  Ascii.compare a b = Lt -> Ascii.compare b c = Lt -> Ascii.compare a c = Lt.
Proof.
  unfold Ascii.compare. rewrite !N.compare_lt_iff. apply N.lt_trans.
Qed.

Lemma string_compare_refl (s : string) : String.compare s s = Eq.
Proof.
  induction s as [|a s IH]; simpl; [reflexivity|].
  now rewrite ascii_compare_refl.
Qed.

Lemma string_compare_lt_trans (s1 s2 s3 : string) :
  String.compare s1 s2 = Lt -> String.compare s2 s3 = Lt ->
  String.compare s1 s3 = Lt.
Proof.
  revert s2 s3.
  induction s1 as [|a s1 IH]; intros [|b s2] [|c s3]; simpl;
    try discriminate; try reflexivity.
  destruct (Ascii.compare a b) eqn:Hab; try discriminate;
    destruct (Ascii.compare b c) eqn:Hbc; try discriminate.
  - apply Ascii.compare_eq_iff in Hab, Hbc. subst.
    rewrite ascii_compare_refl. apply IH.
  - apply Ascii.compare_eq_iff in Hab. subst. now rewrite Hbc.
  - apply Ascii.compare_eq_iff in Hbc. subst. now rewrite Hab.
  - now rewrite (ascii_compare_lt_trans a b c Hab Hbc).
Qed.

Lemma string_leb_trans (s1 s2 s3 : string) :
  String.leb s1 s2 = true -> String.leb s2 s3 = true ->
  String.leb s1 s3 = true.
Proof.
  unfold String.leb.
  destruct (String.compare s1 s2) eqn:H12; try discriminate;
    destruct (String.compare s2 s3) eqn:H23; try discriminate; intros _ _.
  - apply String.compare_eq_iff in H12. subst. now rewrite H23.
  - apply String.compare_eq_iff in H12. subst. now rewrite H23.
  - apply String.compare_eq_iff in H23. subst. now rewrite H12.
  - now rewrite (string_compare_lt_trans s1 s2 s3 H12 H23).
Qed.

Lemma key_leb_total (a b : key) : key_leb a b = true \/ key_leb b a = true.
Proof.
  unfold key_leb. rewrite (String.compare_antisym (fst b) (fst a)).
  destruct (String.compare (fst a) (fst b)); simpl; auto.
  apply String.leb_total.
Qed.

Lemma key_leb_trans (a b c : key) :
  key_leb a b = true -> key_leb b c = true -> key_leb a c = true.
Proof.
  unfold key_leb.
  destruct (String.compare (fst a) (fst b)) eqn:Hab; try discriminate;
    destruct (String.compare (fst b) (fst c)) eqn:Hbc; try discriminate.
  - apply String.compare_eq_iff in Hab, Hbc. rewrite Hab, Hbc.
    rewrite string_compare_refl. apply string_leb_trans.
  - apply String.compare_eq_iff in Hab. rewrite Hab, Hbc. reflexivity.
  - apply String.compare_eq_iff in Hbc. rewrite <- Hbc, Hab. reflexivity.
  - now rewrite (string_compare_lt_trans _ _ _ Hab Hbc).
Qed.

(** ** Sorting, distinct values and filters *)

Section SortFilter.
Context {A : Type}.
Variable leb : A -> A -> bool.
Hypothesis leb_total : forall x y, leb x y = true \/ leb y x = true.
Hypothesis leb_trans :
  forall x y z, leb x y = true -> leb y z = true -> leb x z = true.

Lemma insert_sorted_front (x : A) (l : list A) :
  (forall z, In z l -> leb x z = true) -> insert_sorted leb x l = x :: l.
Proof.
  destruct l as [|y l]; simpl; [reflexivity|].
  intros H. now rewrite (H y (or_introl eq_refl)).
Qed.

Lemma filter_insert_sorted (p : A -> bool) (x : A) (l : list A) :
  StronglySorted (fun a b => leb a b = true) l ->
  filter p (insert_sorted leb x l) =
  if p x then insert_sorted leb x (filter p l) else filter p l.
Proof.
  induction 1 as [|y l Hl IH Hy]; simpl.
  - destruct (p x); reflexivity.
  - destruct (leb x y) eqn:Hxy; simpl.
    + destruct (p x) eqn:Hpx; [|reflexivity].
      symmetry. apply insert_sorted_front.
      intros z Hz.
      assert (Hz' : In z (y :: l)).
      { destruct (p y); [destruct Hz as [<-|Hz]; [now left|right]|right];
          now apply filter_In in Hz. }
      destruct Hz' as [<-|Hz']; [assumption|].
      rewrite Forall_forall in Hy. apply leb_trans with y; auto.
    + rewrite IH. destruct (p x), (p y); simpl; try rewrite Hxy; reflexivity.
Qed.

Lemma filter_sort_by (p : A -> bool) (l : list A) :
  filter p (sort_by leb l) = sort_by leb (filter p l).
Proof.
  induction l as [|x l IH]; simpl; [reflexivity|].
  rewrite filter_insert_sorted by now apply sort_by_sorted.
  rewrite IH. destruct (p x); reflexivity.
Qed.
End SortFilter.

Lemma filter_unique {A : Type} (eqb : A -> A -> bool) (p : A -> bool)
  (l : list A) :
  (forall x y, eqb x y = true <-> x = y) ->
  unique eqb (filter p l) = filter p (unique eqb l).
Proof.
  intros eqb_spec.
  induction l as [|x l IH]; simpl; [reflexivity|].
  destruct (p x) eqn:Hpx; simpl.
  - rewrite IH, !filter_andb. f_equal. apply filter_ext.
    intros y. apply andb_comm.
  - rewrite IH, filter_andb. apply filter_ext_in. intros y _.
    destruct (eqb x y) eqn:E; simpl; [|reflexivity].
    apply eqb_spec in E. subst. now rewrite Hpx.
Qed.

Lemma filter_map_comm {A B : Type} (f : A -> B) (p : B -> bool) (l : list A) :
  filter p (map f l) = map f (filter (fun x => p (f x)) l).
Proof.
  induction l as [|x l IH]; simpl; [reflexivity|].
  destruct (p (f x)); simpl; now rewrite IH.
Qed.

(** ** Aggregation and the filter block *)

Lemma group_keys_filter {R : Type} `{Keyed R} (pk : key -> bool)
  (df : list R) :
  group_keys (filter (fun r => pk (key_of r)) df) =
  filter pk (group_keys df).
Proof.
  unfold group_keys.
  rewrite (filter_sort_by key_leb key_leb_total key_leb_trans).
  rewrite <- (filter_unique key_eqb pk _ key_eqb_eq).
  now rewrite filter_map_comm.
Qed.

Lemma group_rows_filter {R : Type} `{Keyed R} (pk : key -> bool)
  (df : list R) (k : key) :
  pk k = true ->
  group_rows (filter (fun r => pk (key_of r)) df) k = group_rows df k.
Proof.
  intros Hk. unfold group_rows. rewrite filter_andb.
  apply filter_ext. intros r.
  destruct (key_eqb (key_of r) k) eqn:E.
  - apply key_eqb_eq in E. rewrite E, Hk. reflexivity.
  - apply andb_false_r.
Qed.

Lemma groupby_Status_apply_filter (f : list string -> num)
  (pk : key -> bool) (df : list AttendanceRecord) :
  groupby_Status_apply f (filter (fun r => pk (key_of r)) df) =
  filter (fun row => pk (key_of row)) (groupby_Status_apply f df).
Proof.
  unfold groupby_Status_apply.
  rewrite group_keys_filter, filter_map_comm.
  rewrite (filter_ext (fun k => pk (key_of (mkSummary (fst k) (snd k) _)))
             pk) by (intros [a b]; reflexivity).
  apply map_ext_in. intros k Hk. apply filter_In in Hk.
  now rewrite group_rows_filter.
Qed.

Lemma tab1_filtered_df (g : Globals) (s : Session) :
  filtered_df (tab1 g s) =
  apply_filters (attendance_df g)
    (selected_students_attendance g) (selected_subjects_attendance g).
Proof. rewrite tab1_eq. reflexivity. Qed.

(** X1: grouping the filtered table gives the summary of the whole table
    restricted to the selected students and subjects: a pair's percentage
    is the same whether or not the table was filtered first.  So the
    summary of tab 1 is the filtered summary of tab 2, and so is the
    low-attendance list. *)
Theorem aggregation_commutes_with_filter (g : Globals) (s : Session) :
  let students := selected_students_attendance g in
  let subjects := selected_subjects_attendance g in
  (forall df,
      groupby_Status_apply present_percent
        (apply_filters df students subjects) =
      apply_filters (groupby_Status_apply present_percent df)
        students subjects)
  /\ attendance_summary (tab1 g s) =
       apply_filters (attendance_summary (run g)) students subjects
  /\ low_attendance (run g) =
       apply_filters
         (filter (fun r => num_ltb (Attendance_pct r) 75%Q)
                 (attendance_summary (run g)))
         students subjects.
Proof.
  intros students subjects.
  assert (Hcomm : forall df,
             groupby_Status_apply present_percent
               (apply_filters df students subjects) =
             apply_filters (groupby_Status_apply present_percent df)
               students subjects).
  { intros df. rewrite !apply_filters_filter.
    apply (groupby_Status_apply_filter present_percent
             (fun k => (isin "All Students" students || isin (fst k) students)
                       && (isin "All Subjects" subjects
                           || isin (snd k) subjects))). }
  split; [exact Hcomm|]. split.
  - rewrite tab1_attendance_summary, tab1_filtered_df, run_attendance_summary.
    apply Hcomm.
  - rewrite run_low_attendance, run_filtered_df, run_attendance_summary.
    fold students subjects. rewrite Hcomm, !apply_filters_filter.
    rewrite !filter_andb. apply filter_ext. intros r.
    unfold LOW_ATTENDANCE_THRESHOLD. apply andb_comm.
Qed.

(** X2: the summary rows come out in ascending order of (Student, Subject),
    first by student and then by subject, each pair once; the rows of the
    average-marks frame come out in ascending order of Student. *)
Theorem grouped_rows_sorted (df : list AttendanceRecord)
  (marks : list MarkRecord) :
  StronglySorted
    (fun a b =>
       String.ltb (fst a) (fst b) = true
       \/ (fst a = fst b /\ String.ltb (snd a) (snd b) = true))
    (map key_of (groupby_Status_apply present_percent df))
  /\ StronglySorted (fun a b => String.ltb a b = true)
       (map avg_Student (groupby_Student_Marks_mean marks)).
Proof.
  split.
  - rewrite groupby_Status_apply_keys.
    pose proof (group_keys_NoDup df) as Hnd.
    pose proof (sort_by_sorted key_leb key_leb_total key_leb_trans
                  (unique key_eqb (map key_of df))) as Hs.
    fold (group_keys df) in Hs.
    induction Hs as [|k l Hl IH Hk]; constructor.
    + apply IH. now inversion Hnd.
    + apply Forall_forall. intros k' Hk'.
      rewrite Forall_forall in Hk. specialize (Hk k' Hk').
      assert (Hneq : k <> k').
      { inversion Hnd; subst. intros <-. contradiction. }
      unfold key_leb in Hk. unfold String.ltb.
      destruct (String.compare (fst k) (fst k')) eqn:E1; try discriminate.
      * right. apply String.compare_eq_iff in E1. split; [assumption|].
        unfold String.leb in Hk.
        destruct (String.compare (snd k) (snd k')) eqn:E2;
          try discriminate; [|reflexivity].
        apply String.compare_eq_iff in E2.
        destruct k, k'; simpl in *; congruence.
      * left. reflexivity.
  - unfold groupby_Student_Marks_mean. rewrite map_map, map_id.
    assert (Hnd : NoDup (student_keys marks)).
    { unfold student_keys.
      eapply Permutation_NoDup; [apply sort_by_perm|].
      apply unique_NoDup, String.eqb_eq. }
    pose proof (sort_by_sorted String.leb String.leb_total string_leb_trans
                  (unique String.eqb (map Student marks))) as Hs.
    fold (student_keys marks) in Hs.
    induction Hs as [|k l Hl IH Hk]; constructor.
    + apply IH. now inversion Hnd.
    + apply Forall_forall. intros k' Hk'.
      rewrite Forall_forall in Hk. specialize (Hk k' Hk').
      assert (Hneq : k <> k').
      { inversion Hnd; subst. intros <-. contradiction. }
      unfold String.leb in Hk. unfold String.ltb.
      destruct (String.compare k k') eqn:E; try discriminate; [|reflexivity].
      apply String.compare_eq_iff in E. contradiction.
Qed.

(** ** Averages *)







(** ** The pie chart *)

(** X4: on a non-empty filtered table the pie chart gets two numbers: the
    share of rows whose status is Present, as a percentage, and the rest
    up to 100; both lie between 0 and 100, and the first is 100 exactly
    when every filtered row is Present. *)
Theorem pie_shares (g : Globals) :
  filtered_df (run g) <> [] ->
  let rows := filtered_df (run g) in
  let present := filter (fun r => String.eqb (Status r) "Present") rows in
  exists p,
    present_ratio (run g) = Num p
    /\ pie_data (run g) = [("Present", Num p); ("Absent", Num (100 - p)%Q)]
    /\ (p == 100 * (inject_Z (Z.of_nat (List.length present))
                    / inject_Z (Z.of_nat (List.length rows))))%Q
    /\ (0 <= p)%Q /\ (p <= 100)%Q
    /\ (0 <= 100 - p)%Q /\ (100 - p <= 100)%Q
    /\ (p + (100 - p) == 100)%Q
    /\ ((p == 100)%Q <-> forall r, In r rows -> Status r = "Present").
Proof.
  intros Hne rows present.
  destruct (present_percent_group rows Hne)
    as [p [Hp [Heq [H0 [H100 [Hall _]]]]]].
  assert (Hratio : present_ratio (run g) = Num p).
  { rewrite run_present_ratio. fold rows. rewrite <- Hp.
    unfold present_percent. now rewrite map_map. }
  exists p. split; [exact Hratio|].
  split; [rewrite run_pie_data, Hratio; reflexivity|].
  split; [exact Heq|]. split; [exact H0|]. split; [exact H100|].
  split; [|split; [|split; [ring|exact Hall]]].
  - unfold Qminus. rewrite <- (Qplus_opp_r p).
    apply Qplus_le_compat; [assumption|apply Qle_refl].
  - unfold Qminus. rewrite <- (Qplus_0_r 100) at 2.
    apply Qplus_le_compat; [apply Qle_refl|].
    apply (Qopp_le_compat 0 p). assumption.
Qed.

Lemma pie_shares_witness :
  let g := sample ["A"] ["All Subjects"] ["All Students"] ["All Subjects"] in
  exists p,
    pie_data (run g) = [("Present", Num p); ("Absent", Num (100 - p)%Q)]
    /\ (p == 50)%Q.
Proof.
  intros g.
  destruct (pie_shares g) as [p [Hp [Hpie _]]]; [discriminate|].
  exists p. split; [exact Hpie|].
  vm_compute in Hp. injection Hp as <-. reflexivity.
Defined.

(** ** Reading of the Status column *)

Lemma present_or_absent_key (r : AttendanceRecord) :
  key_of (present_or_absent r) = key_of r.
Proof. reflexivity. Qed.

Lemma present_or_absent_flag (r : AttendanceRecord) :
  String.eqb (Status (present_or_absent r)) "Present" =
  String.eqb (Status r) "Present".
Proof.
  unfold present_or_absent. cbn [Status].
  destruct (String.eqb (Status r) "Present"); reflexivity.
Qed.

Lemma apply_filters_present_or_absent (df : list AttendanceRecord)
  (students subjects : list string) :
  apply_filters (map present_or_absent df) students subjects =
  map present_or_absent (apply_filters df students subjects).
Proof.
  rewrite !apply_filters_filter. apply filter_map_comm.
Qed.

Lemma present_percent_present_or_absent (rows : list AttendanceRecord) :
  present_percent (map Status (map present_or_absent rows)) =
  present_percent (map Status rows).
Proof.
  unfold present_percent. rewrite !map_map. do 2 f_equal.
  apply map_ext. intros r. apply present_or_absent_flag.
Qed.

Lemma groupby_present_or_absent (df : list AttendanceRecord) :
  groupby_Status_apply present_percent (map present_or_absent df) =
  groupby_Status_apply present_percent df.
Proof.
  unfold groupby_Status_apply, group_keys. rewrite map_map.
  rewrite (map_ext (fun r => key_of (present_or_absent r)) key_of)
    by apply present_or_absent_key.
  apply map_ext. intros k. f_equal.
  unfold group_rows. rewrite filter_map_comm.
  apply present_percent_present_or_absent.
Qed.

(** X5: only the exact string "Present" counts as present.  Replacing
    every other status (such as "present", "Late" or an empty one) by
    "Absent" in the attendance table changes neither summary, nor the
    low-attendance list, nor the pie chart, nor the special-attention
    list. *)
Theorem status_is_present_or_not (g : Globals) :
  let g' := with_attendance_df g (map present_or_absent (attendance_df g)) in
  attendance_summary (tab1 g' fresh) = attendance_summary (tab1 g fresh)
  /\ low_attendance (run g') = low_attendance (run g)
  /\ pie_data (run g') = pie_data (run g)
  /\ attendance_summary (run g') = attendance_summary (run g)
  /\ special_attention (run g') = special_attention (run g).
Proof.
  intros g'.
  assert (Hf : filtered_df (run g') = map present_or_absent (filtered_df (run g))).
  { rewrite !run_filtered_df. apply apply_filters_present_or_absent. }
  assert (Hs : attendance_summary (run g') = attendance_summary (run g)).
  { rewrite !run_attendance_summary. apply groupby_present_or_absent. }
  split.
  { rewrite !tab1_attendance_summary, !tab1_filtered_df.
    cbn [g' with_attendance_df attendance_df selected_students_attendance
         selected_subjects_attendance].
    rewrite apply_filters_present_or_absent.
    apply groupby_present_or_absent. }
  split.
  { rewrite !run_low_attendance, Hf. f_equal.
    apply groupby_present_or_absent. }
  split.
  { rewrite !run_pie_data, !run_present_ratio, Hf, map_map.
    rewrite (map_ext _ _ present_or_absent_flag). reflexivity. }
  split; [exact Hs|].
  rewrite !run_special_attention, !run_merged_df, !run_filtered_marks_df.
  rewrite <- !run_attendance_summary, Hs. reflexivity.
Qed.

(** ** The left join against a grouped summary *)

Lemma filter_key_unique {R : Type} `{Keyed R} (k : key) (l : list R) :
  NoDup (map key_of l) ->
  (List.length (filter (fun s => key_eqb (key_of s) k) l) <= 1)%nat.
Proof.
  induction l as [|x l IH]; simpl; intros Hnd; [lia|].
  inversion Hnd as [|? ? Hx Hl]; subst.
  destruct (key_eqb (key_of x) k) eqn:E; [|now apply IH].
  apply key_eqb_eq in E. subst k.
  rewrite filter_none; [simpl; lia|].
  intros y Hy. destruct (key_eqb (key_of y) (key_of x)) eqn:E; [|reflexivity].
  apply key_eqb_eq in E. exfalso. apply Hx. rewrite <- E. now apply in_map.
Qed.

Lemma merge_left_marks (left : list MarkRecord)
  (right : list AttendanceSummary) :
  NoDup (map key_of right) ->
  map mark_of (merge_left left right) = left.
Proof.
  intros Hnd. unfold merge_left.
  induction left as [|m left IH]; [reflexivity|].
  cbn [flat_map]. rewrite map_app, IH. clear IH.
  pose proof (filter_key_unique (key_of m) right Hnd) as Hlen.
  destruct (filter _ right) as [|s [|s' ss]]; simpl in Hlen; try lia;
    destruct m; reflexivity.
Qed.

(** X6: the merged frame has the filtered mark rows, each exactly once and
    in the same order, with a percentage column added: the left join
    against the grouped summary neither drops nor repeats a mark row. *)
Theorem merge_keeps_mark_rows (g : Globals) :
  map mark_of (merged_df (run g)) = filtered_marks_df (run g)
  /\ List.length (merged_df (run g)) = List.length (filtered_marks_df (run g))
  /\ (List.length (special_attention (run g))
      <= List.length (failing_students (run g)))%nat.
Proof.
  assert (Hmarks : map mark_of (merged_df (run g)) = filtered_marks_df (run g)).
  { rewrite run_merged_df. apply merge_left_marks.
    rewrite groupby_Status_apply_keys. apply group_keys_NoDup. }
  split; [exact Hmarks|].
  split; [rewrite <- Hmarks; symmetry; apply length_map|].
  rewrite run_special_attention, run_failing_students, <- Hmarks.
  rewrite filter_map_comm, length_map, <- filter_andb.
  apply filter_length_le.
Qed.

(** X7: a row needs special attention exactly when its mark record is in
    the failing-marks list of the marks tab and its (Student, Subject,
    percentage) is a row below 75 of the whole-table summary. *)
Theorem special_attention_is_failing_and_low (g : Globals)
  (row : MergedRow) :
  In row (special_attention (run g)) <->
  In (mark_of row) (failing_students (run g))
  /\ In (summary_of row)
        (filter (fun r => num_ltb (Attendance_pct r) 75%Q)
                (attendance_summary (run g))).
Proof.
  rewrite run_special_attention, run_failing_students, run_merged_df,
    run_attendance_summary.
  unfold FAILING_MARK_THRESHOLD, LOW_ATTENDANCE_THRESHOLD.
  rewrite !filter_In, andb_true_iff, merge_left_In.
  change (Marks (mark_of row)) with (mrg_Marks row).
  change (Attendance_pct (summary_of row)) with (mrg_Attendance_pct row).
  split.
  - intros [[m [Hm [E1 [E2 [E3 Hpct]]]]] [Hlow Hatt]].
    assert (Em : mark_of row = m).
    { destruct m. unfold mark_of. cbn in E1, E2, E3. congruence. }
    rewrite Em.
    repeat split; try assumption.
    destruct Hpct as [[s [Hs [Ek Ep]]]|[_ Enan]].
    + assert (Es : summary_of row = s).
      { destruct s. unfold key_of in Ek. unfold summary_of.
        cbn in Ek, Ep, E1, E2. injection Ek as Ek1 Ek2. congruence. }
      now rewrite Es.
    + rewrite Enan in Hatt. discriminate.
  - intros [[Hm Hlow] [Hs Hatt]].
    repeat split; try assumption.
    exists (mark_of row).
    repeat split; try assumption.
    left. exists (summary_of row).
    repeat split. assumption.
Qed.

(** ** Events *)

Lemma filter_sorted_prefix {A : Type} (R : A -> A -> Prop) (p : A -> bool)
  (l : list A) :
  (forall a b, R a b -> p b = true -> p a = true) ->
  StronglySorted R l ->
  exists rest, l = filter p l ++ rest /\ forall e, In e rest -> p e = false.
Proof.
  intros Hclosed. induction 1 as [|x l Hl IH Hx]; simpl.
  - exists []. split; [reflexivity|]. intros e [].
  - destruct (p x) eqn:Hpx.
    + destruct IH as [rest [E Hrest]]. exists rest. split; [|assumption].
      simpl. now rewrite <- E.
    + exists (x :: l).
      assert (Hnone : forall e, In e l -> p e = false).
      { intros e He. destruct (p e) eqn:Hpe; [|reflexivity].
        rewrite Forall_forall in Hx.
        rewrite (Hclosed x e (Hx e He) Hpe) in Hpx. discriminate. }
      rewrite (filter_none p l Hnone). split; [reflexivity|].
      intros e [<-|He]; auto.
Qed.

(** X8: the near-deadline list is the beginning of the upcoming table:
    the upcoming table is the near-deadline list followed by the events
    dated more than seven days after today. *)
Theorem near_deadline_is_prefix_of_upcoming (g : Globals) :
  exists later,
    upcoming (run g) = near_deadline (run g) ++ later
    /\ forall e, In e later -> today g + 7 < dt_date (Date e).
Proof.
  rewrite run_near_deadline.
  destruct (filter_sorted_prefix
              (fun a b => Date a <= Date b)
              (fun e => dt_date (Date e) <=? today g + 7)
              (upcoming (run g))) as [later [E Hlater]].
  - intros a b Hab. rewrite !Z.leb_le. intros Hb.
    apply Z.le_trans with (dt_date (Date b)); [|assumption].
    now apply dt_date_mono.
  - rewrite run_upcoming. apply sort_values_Date_sorted.
  - exists later. split; [exact E|].
    intros e He. apply Hlater in He. now apply Z.leb_gt in He.
Qed.

Lemma dt_date_ge (d ts : Z) : d <= dt_date ts <-> d * NS_PER_DAY <= ts.
Proof.
  unfold dt_date, NS_PER_DAY. split; intros H.
  - Z.to_euclidean_division_equations. lia.
  - Z.to_euclidean_division_equations. lia.
Qed.

Lemma dt_date_le (d ts : Z) : dt_date ts <= d <-> ts < (d + 1) * NS_PER_DAY.
Proof.
  unfold dt_date, NS_PER_DAY. split; intros H.
  - Z.to_euclidean_division_equations. lia.
  - Z.to_euclidean_division_equations. lia.
Qed.

(** X9: only the calendar day of an event counts, not its time of day: an
    event is upcoming from the first nanosecond of today on, and near a
    deadline up to the last nanosecond of the seventh day after today. *)
Theorem event_windows_in_timestamps (g : Globals) (e : EventRecord) :
  (In e (upcoming (run g)) <->
   In e (events_df g) /\ today g * NS_PER_DAY <= Date e)
  /\ (In e (near_deadline (run g)) <->
      In e (events_df g)
      /\ today g * NS_PER_DAY <= Date e < (today g + 8) * NS_PER_DAY).
Proof.
  rewrite run_near_deadline, run_upcoming.
  unfold sort_values_Date.
  rewrite filter_In, sort_by_In, filter_In, !Z.leb_le.
  rewrite dt_date_ge, dt_date_le.
  replace (today g + 7 + 1) with (today g + 8) by lia.
  tauto.
Qed.

(** ** Alerts on the page *)

Lemma run_page (g : Globals) :
  page (run g) =
  page (sidebar g fresh) ++
  ([st_header "📘 Attendance Overview";
    st_subheader "Filtered Attendance Data";
    st_dataframe (AttendanceFrame (filtered_df (run g)));
    st_subheader "Attendance % by Student and Subject";
    st_plotly_chart
      (px_bar_attendance
         (groupby_Status_apply present_percent (filtered_df (run g))));
    st_subheader "Overall Attendance Distribution";
    st_plotly_chart (px_pie (pie_data (run g)))] ++
   (if not_empty (low_attendance (run g))
    then [st_warning "⚠️ Students with attendance below 75%:";
          st_dataframe (SummaryFrame (low_attendance (run g)))]
    else [])) ++
  ([st_header "📝 Marks Overview";
    st_subheader "Marks Data";
    st_dataframe (MarksFrame (filtered_marks_df (run g)))] ++
   (if not_empty (failing_students (run g))
    then [st_warning "⚠️ Students scoring below 40:";
          st_dataframe (MarksFrame (failing_students (run g)))]
    else []) ++
   [st_subheader "Average Marks per Student";
    st_plotly_chart (px_bar_marks (avg_marks (run g)));
    st_subheader "Subject-wise Marks Distribution";
    st_plotly_chart (px_box (filtered_marks_df (run g)));
    st_subheader "🚨 Students Needing Special Attention"] ++
   (if not_empty (special_attention (run g))
    then [st_warning
            "⚠️ These students need special attention (low marks & low attendance):";
          st_dataframe (MergedFrame (special_attention (run g)));
          st_plotly_chart (px_scatter (merged_df (run g)))]
    else [st_success
            "✅ No students currently flagged for special attention."])) ++
  ([st_header "📅 Upcoming Exams & Assignments";
    st_dataframe (EventsFrame (upcoming (run g)))] ++
   (if not_empty (near_deadline (run g))
    then [st_warning "⚠️ Deadlines within 7 days:";
          st_dataframe (EventsFrame (near_deadline (run g)))]
    else [])).
Proof.
  rewrite run_pie_data, run_present_ratio, run_low_attendance,
    run_special_attention, run_merged_df, run_avg_marks,
    run_failing_students, run_near_deadline, run_upcoming,
    run_filtered_df, run_filtered_marks_df.
  unfold run, script, seq.
  rewrite tab3_eq, tab2_eq, tab1_eq.
  cbn [page]. rewrite <- !app_assoc. reflexivity.
Qed.

(** The page after a run, with the frames it shows as variables. *)
Ltac page_parts g :=
  rewrite (run_page g), sidebar_eq; cbn [page fresh];
  generalize (low_attendance (run g)) (failing_students (run g))
    (special_attention (run g)) (near_deadline (run g))
    (filtered_df (run g)) (filtered_marks_df (run g)) (pie_data (run g))
    (avg_marks (run g)) (merged_df (run g)) (upcoming (run g));
  intros low failing special near fdf fmarks pie avg merged up.

(** [H] says that a widget is in a part of the page where it is not. *)
Ltac absent H :=
  repeat match type of H with
         | In _ (if not_empty ?l then _ else _) =>
             destruct l; cbn [not_empty] in H
         | In _ (_ :: _) => destruct H as [H|H]; [discriminate H|]
         | In _ [] => destruct H
         end.

Ltac alert_shown L :=
  let H := fresh "Hin" in
  intros H;
  repeat match type of H with
         | In _ (_ ++ _) => apply in_app_or in H; destruct H as [H|H]
         end;
  try (destruct L; cbn [not_empty] in H;
       [absent H; try reflexivity | try discriminate; absent H]);
  absent H.

Ltac locate :=
  first [ solve [left; reflexivity]
        | apply in_or_app; first [ left; locate | right; locate ] ].

Ltac alert_due L :=
  let H := fresh "Hne" in
  intros H; destruct L; try congruence; cbn [not_empty]; locate.

(** X10: after a run, each warning is on the page exactly when its list is
    non-empty, and the all-clear message exactly when the special-attention
    list is empty. *)
Theorem alerts_follow_their_lists (g : Globals) :
  (In (st_warning "⚠️ Students with attendance below 75%:") (page (run g))
   <-> low_attendance (run g) <> [])
  /\ (In (st_warning "⚠️ Students scoring below 40:") (page (run g))
      <-> failing_students (run g) <> [])
  /\ (In (st_warning
            "⚠️ These students need special attention (low marks & low attendance):")
         (page (run g))
      <-> special_attention (run g) <> [])
  /\ (In (st_success
            "✅ No students currently flagged for special attention.")
         (page (run g))
      <-> special_attention (run g) = [])
  /\ (In (st_warning "⚠️ Deadlines within 7 days:") (page (run g))
      <-> near_deadline (run g) <> []).
Proof.
  page_parts g.
  split; [|split; [|split; [|split]]]; split.
  - alert_shown low.
  - alert_due low.
  - alert_shown failing.
  - alert_due failing.
  - alert_shown special.
  - alert_due special.
  - alert_shown special.
  - alert_due special.
  - alert_shown near.
  - alert_due near.
Qed.

(** ** What each tab reads *)

(** X11: each tab reads only its own inputs.  Tab 1 is fixed by the
    attendance table and the attendance selections; tab 2 by the marks
    table, the marks selections and the attendance table; tab 3 by the
    events table and today's date.  In particular a selection of the marks
    tab changes nothing in tab 1, and no selection changes tab 3. *)
Theorem tabs_read_their_own_inputs (g1 g2 : Globals) (s : Session) :
  (attendance_df g1 = attendance_df g2 ->
   selected_students_attendance g1 = selected_students_attendance g2 ->
   selected_subjects_attendance g1 = selected_subjects_attendance g2 ->
   tab1 g1 s = tab1 g2 s)
  /\ (marks_df g1 = marks_df g2 ->
      selected_students_marks g1 = selected_students_marks g2 ->
      selected_subjects_marks g1 = selected_subjects_marks g2 ->
      attendance_df g1 = attendance_df g2 ->
      tab2 g1 s = tab2 g2 s)
  /\ (events_df g1 = events_df g2 ->
      today g1 = today g2 ->
      tab3 g1 s = tab3 g2 s).
Proof.
  split; [|split].
  - intros E1 E2 E3. rewrite !tab1_eq, E1, E2, E3. reflexivity.
  - intros E1 E2 E3 E4. rewrite !tab2_eq, E1, E2, E3, E4. reflexivity.
  - intros E1 E2. rewrite !tab3_eq, E1, E2. reflexivity.
Qed.

Lemma tabs_read_their_own_inputs_witness :
  tab1 (sample ["A"] ["Math"] ["B"] ["All Subjects"]) fresh =
  tab1 (sample ["A"] ["Math"] [] ["Science"]) fresh
  /\ tab3 (sample ["A"] ["Math"] ["B"] ["All Subjects"]) fresh =
     tab3 (sample [] [] [] []) fresh.
Proof.
  split.
  - apply (tabs_read_their_own_inputs
             (sample ["A"] ["Math"] ["B"] ["All Subjects"])
             (sample ["A"] ["Math"] [] ["Science"]) fresh); reflexivity.
  - apply (tabs_read_their_own_inputs
             (sample ["A"] ["Math"] ["B"] ["All Subjects"])
             (sample [] [] [] []) fresh); reflexivity.
Defined.

(** ** Selections *)

(** X12: a selection that names every student and every subject of the
    table, without the sentinel, shows the whole table, like the
    sentinel does. *)
Theorem selecting_everything_shows_all (g : Globals) :
  (forall r, In r (attendance_df g) ->
             In (Student r) (selected_students_attendance g)) ->
  (forall r, In r (attendance_df g) ->
             In (Subject r) (selected_subjects_attendance g)) ->
  filtered_df (run g) = attendance_df g.
Proof.
  intros Hs Hb. rewrite run_filtered_df, apply_filters_filter.
  apply filter_all. intros r Hr.
  apply andb_true_iff. split; apply orb_true_iff; right; apply isin_In; auto.
Qed.

Lemma selecting_everything_shows_all_witness :
  filtered_df (run (sample ["D"; "B"; "A"] ["Science"; "Math"] [] [])) =
  sample_attendance.
Proof.
  apply (selecting_everything_shows_all
           (sample ["D"; "B"; "A"] ["Science"; "Math"] [] [])).
  - intros r Hr. vm_compute in Hr.
    repeat (destruct Hr as [<-|Hr]; [vm_compute; tauto|]). destruct Hr.
  - intros r Hr. vm_compute in Hr.
    repeat (destruct Hr as [<-|Hr]; [vm_compute; tauto|]). destruct Hr.
Defined.

(** X13: widening a selection never hides a row: if every selected student
    and subject is still selected, every row shown before is still
    shown. *)
Theorem widening_selection_keeps_rows (g : Globals)
  (students subjects students' subjects' : list string) :
  incl students students' -> incl subjects subjects' ->
  incl (filtered_df (run (with_attendance_selection g students subjects)))
       (filtered_df (run (with_attendance_selection g students' subjects'))).
Proof.
  intros Hs Hb r. rewrite !run_filtered_df.
  cbn [with_attendance_selection attendance_df selected_students_attendance
       selected_subjects_attendance].
  rewrite !apply_filters_In.
  intros [Hr [[H1|H1] [H2|H2]]]; repeat split; auto.
Qed.

Lemma widening_selection_keeps_rows_witness :
  let g := sample [] [] [] [] in
  incl (filtered_df (run (with_attendance_selection g ["A"] ["Math"])))
       (filtered_df (run (with_attendance_selection g
                            ["A"; "B"] ["Math"; "All Subjects"]))).
Proof.
  intros g.
  apply (widening_selection_keeps_rows g).
  - intros x [<-|[]]. simpl. auto.
  - intros x [<-|[]]. simpl. auto.
Defined.

(** X14: the options of a selection are the sentinel followed by the
    values of the column, each value once, in the order in which they
    first appear in the table. *)
Theorem options_are_sentinel_and_distinct_values (R : Type) (K : Keyed R)
  (df : list R) :
  exists students subjects,
    student_options df = "All Students" :: students
    /\ subject_options df = "All Subjects" :: subjects
    /\ NoDup students /\ NoDup subjects
    /\ (forall s, In s students <-> exists r, In r df /\ Student r = s)
    /\ (forall s, In s subjects <-> exists r, In r df /\ Subject r = s)
    /\ (forall r df', df = r :: df' ->
                     exists rest, students = Student r :: rest).
Proof.
  exists (unique String.eqb (map Student df)),
         (unique String.eqb (map Subject df)).
  split; [reflexivity|]. split; [reflexivity|].
  split; [apply unique_NoDup, String.eqb_eq|].
  split; [apply unique_NoDup, String.eqb_eq|].
  split; [|split].
  - intros s. rewrite (unique_In String.eqb String.eqb_eq), in_map_iff.
    split; intros [r [H1 H2]]; exists r; auto.
  - intros s. rewrite (unique_In String.eqb String.eqb_eq), in_map_iff.
    split; intros [r [H1 H2]]; exists r; auto.
  - intros r df' ->. eexists. reflexivity.
Qed.

Lemma options_are_sentinel_and_distinct_values_witness :
  student_options sample_marks = ["All Students"; "A"; "B"; "C"]
  /\ exists rest, unique String.eqb (map Student sample_marks) = "A" :: rest.
Proof.
  split; [reflexivity|].
  destruct (options_are_sentinel_and_distinct_values MarkRecord _ sample_marks)
    as [students [subjects [E [_ [_ [_ [_ [_ Hfirst]]]]]]]].
  injection E as <-.
  apply (Hfirst (mkMark "A" "Math" (Num 30)) (tl sample_marks)).
  reflexivity.
Defined.

(** X15: selecting a single student other than the sentinel text, with all
    subjects, shows exactly the rows of that student, in table order. *)
Theorem selecting_one_student (g : Globals) (s : string) :
  s <> "All Students" ->
  selected_students_attendance g = [s] ->
  In "All Subjects" (selected_subjects_attendance g) ->
  filtered_df (run g) =
  filter (fun r => String.eqb (Student r) s) (attendance_df g).
Proof.
  intros Hs Hsel Hall. rewrite run_filtered_df, apply_filters_filter, Hsel.
  apply isin_In in Hall. rewrite Hall.
  apply filter_ext. intros r. cbn [isin existsb].
  rewrite !orb_false_r, orb_true_l, andb_true_r.
  destruct (String.eqb_spec "All Students" s) as [E|_]; [congruence|].
  reflexivity.
Qed.

Lemma selecting_one_student_witness :
  filtered_df (run (sample ["D"] ["All Subjects"] [] [])) =
  [mkAttendance "D" "Math" (day 19723) "Absent"].
Proof.
  rewrite (selecting_one_student (sample ["D"] ["All Subjects"] [] []) "D").
  - reflexivity.
  - discriminate.
  - reflexivity.
  - simpl. auto.
Defined.

(** ** Missing data *)

(** X16: when no attendance row has the (Student, Subject) of a filtered
    mark row -- for one, when the attendance table is empty -- every
    merged row has a missing percentage and nobody is flagged for special
    attention, whatever the marks. *)
Theorem no_attendance_no_special_attention (g : Globals) :
  (forall m a, In m (filtered_marks_df (run g)) -> In a (attendance_df g) ->
               key_of a <> key_of m) ->
  (forall row, In row (merged_df (run g)) -> mrg_Attendance_pct row = NaN)
  /\ special_attention (run g) = [].
Proof.
  intros Hnone.
  assert (Hnan : forall row, In row (merged_df (run g)) ->
                             mrg_Attendance_pct row = NaN).
  { intros row Hrow. rewrite run_merged_df in Hrow.
    apply merge_left_In in Hrow.
    destruct Hrow as [m [Hm [_ [_ [_ [[s [Hs [Ek _]]]|[_ E]]]]]]];
      [|exact E].
    exfalso.
    assert (Hk : In (key_of s)
                   (map key_of (groupby_Status_apply present_percent
                                  (attendance_df g))))
      by now apply in_map.
    rewrite groupby_Status_apply_keys in Hk. apply group_keys_In in Hk.
    destruct Hk as [a [Ha Eka]]. apply (Hnone m a Hm Ha). congruence. }
  split; [exact Hnan|].
  rewrite run_special_attention. apply filter_none. intros row Hrow.
  rewrite (Hnan row Hrow). apply andb_false_r.
Qed.

Lemma no_attendance_no_special_attention_witness :
  let g := with_attendance_df
             (sample [] [] ["All Students"] ["All Subjects"]) [] in
  failing_students (run g) <> [] /\ special_attention (run g) = [].
Proof.
  intros g. split; [discriminate|].
  apply (no_attendance_no_special_attention g).
  intros m a _ [].
Defined.

(** X17: a mark row whose Marks cell is missing is never in the
    failing-marks list and never in the special-attention list. *)
Theorem missing_marks_are_not_flagged (g : Globals) (m : MarkRecord) :
  Marks m = NaN ->
  ~ In m (failing_students (run g))
  /\ forall row, In row (special_attention (run g)) -> mark_of row <> m.
Proof.
  intros Hnan. split.
  - rewrite run_failing_students, filter_In, Hnan. intros [_ H].
    discriminate.
  - intros row Hrow E. rewrite run_special_attention in Hrow.
    apply filter_In in Hrow. destruct Hrow as [_ H].
    apply andb_true_iff in H. destruct H as [H _].
    change (mrg_Marks row) with (Marks (mark_of row)) in H.
    rewrite E, Hnan in H. discriminate.
Qed.

Lemma missing_marks_are_not_flagged_witness :
  let m := mkMark "A" "Math" NaN in
  let g := with_marks_df (sample [] [] ["All Students"] ["All Subjects"])
             (m :: sample_marks) in
  In m (filtered_marks_df (run g)) /\ ~ In m (failing_students (run g)).
Proof.
  intros m g. split; [vm_compute; auto|].
  apply (missing_marks_are_not_flagged g m). reflexivity.
Defined.
